(** * The Gelato photobook relay ([app.py])

    A shallow embedding of the single Flask endpoint [/order-book] and of
    the four helpers it calls, in the order of the source file:
    [download_pdf], [ensure_correct_page_count], [upload_binary],
    [order_book_with_gelato] and [order_book].

    Conventions.
    - Python values that come from or go to JSON are terms of [json]. The
      parsed body of the request, [request.json], is a [request_json]: a
      dict, that is a [gmap string json], for a JSON object, and any other
      JSON value as it is. The model starts once the body is parsed.
    - A Python [str] is a [string]; each character stands for the code point
      of the same number, so the model covers code points below 256. Which
      texts the standard output can encode is the environment's
      [stdout_encodes].
    - Every function that touches the outside world runs in the monad [M]:
      it threads a [state] (the files on disk, the number of [uuid4] calls
      made, and a trace of calls) and either returns or raises.
    - The outside world (HTTP peers, the disk, the random generator, the two
      environment variables) is an [env]; it also carries [py_format], the
      text Python's [str()] gives for a value that is not a [str].
      PyMuPDF is the class [Fitz]; the runs at the end of the file take the
      library as its documentation describes it.
    - A [print] is modelled where it formats, through [str()], a string
      that comes from the request or from the provider (lines 78, 118 and,
      for a body that is a string, 131): such a [print] raises when the
      standard output cannot encode the text. The other [print] calls write
      the program's own literals with numbers, fixed paths, [repr] text or
      the text of an exception, and are not modelled. *)

From Stdlib Require Import ZArith Lia Ascii String.
From stdpp Require Import base option list strings gmap.

Local Open Scope string_scope.
Local Open Scope Z_scope.

(** ** Python values *)

#[warnings="-register-all"]
Inductive json : Type :=
| JNull
| JBool (b : bool)
| JNum (z : Z)
| JStr (s : string)
| JArr (items : list json)
| JObj (members : list (string * json)).

(** The exception classes the modelled code can meet. Every one of them is
    an [Exception], so a bare [except Exception] catches them all. *)
Inductive exn : Type :=
| KeyError (key : string)
| IndexError
| AttributeError
| TypeError
| OSError
| RequestException
| FitzError
| UnicodeEncodeError.

Inductive result (A : Type) : Type :=
| Return (a : A)
| Raise (e : exn).
Arguments Return {A} a.
Arguments Raise {A} e.

(** [d[k]] on a dict built from a JSON object. *)
Fixpoint assoc (k : string) (members : list (string * json)) : option json :=
  match members with
  | [] => None
  | (k', v) :: rest => if String.eqb k k' then Some v else assoc k rest
  end.

(** The member [k] of a JSON object, for reading payloads and responses. *)
Definition json_get (k : string) (v : json) : option json :=
  match v with
  | JObj members => assoc k members
  | _ => None
  end.

(** [bool(v)] for the values JSON can produce. *)
Definition truthy (v : json) : bool :=
  match v with
  | JNull => false
  | JBool b => b
  | JNum z => negb (z =? 0)
  | JStr s => negb (String.eqb s "")
  | JArr items => match items with [] => false | _ => true end
  | JObj members => match members with [] => false | _ => true end
  end.

(** [request.json], the parsed body of the request: a dict for a JSON
    object, and the other JSON values as they are. *)
Inductive request_json : Type :=
| Dict (data : gmap string json)
| RNull
| RBool (b : bool)
| RNum (z : Z)
| RStr (s : string)
| RArr (items : list json).

(** [item == field] for an element of a list and a string. *)
Definition is_str (field : string) (item : json) : bool :=
  match item with
  | JStr s => String.eqb s field
  | _ => false
  end.

(** ** [str.split()] without arguments *)

(** [str.isspace] on one character, for code points below 256. *)
Definition py_isspace (c : ascii) : bool :=
  let n := nat_of_ascii c in
  ((9 <=? n) && (n <=? 13) || (28 <=? n) && (n <=? 32)
   || (n =? 133) || (n =? 160))%nat.

(** One pass over the characters; [cur] is the token being read, reversed.
    Runs of whitespace separate tokens and produce no empty token. *)
Fixpoint split_from (cur : list ascii) (s : string) : list string :=
  match s with
  | EmptyString =>
      match cur with
      | [] => []
      | _ => [string_of_list_ascii (rev cur)]
      end
  | String c rest =>
      if py_isspace c then
        match cur with
        | [] => split_from [] rest
        | _ => string_of_list_ascii (rev cur) :: split_from [] rest
        end
      else split_from (c :: cur) rest
  end.

Definition py_split (s : string) : list string := split_from [] s.

Fixpoint all_space (s : string) : bool :=
  match s with
  | EmptyString => true
  | String c rest => py_isspace c && all_space rest
  end.

Fixpoint no_space (s : string) : bool :=
  match s with
  | EmptyString => true
  | String c rest => negb (py_isspace c) && no_space rest
  end.

(** The last character of a string is whitespace. *)
Fixpoint ends_with_space (s : string) : bool :=
  match s with
  | EmptyString => false
  | String c EmptyString => py_isspace c
  | String _ rest => ends_with_space rest
  end.

(** [needle in s] for two strings. *)
Fixpoint has_substring (needle s : string) : bool :=
  String.prefix needle s ||
  match s with
  | EmptyString => false
  | String _ rest => has_substring needle rest
  end.

(** [field in data]: keys of a dict, elements of a list, substrings of a
    string; [None] for the other values, which are not iterable. *)
Definition holds_field (field : string) (data : request_json) : option bool :=
  match data with
  | Dict d => Some (bool_decide (is_Some (d !! field)))
  | RArr items => Some (existsb (is_str field) items)
  | RStr s => Some (has_substring field s)
  | RNull | RBool _ | RNum _ => None
  end.

(** [hex[:8]] *)
Definition first8 (s : string) : string := String.substring 0 8 s.

(** ** Module constants *)

Definition GELATO_API_URL : string := "https://order.gelatoapis.com/v4/orders".
Definition TEMP_DIR : string := "./temp_pdfs".
Definition PDF_DIR : string := "./processed_pdfs".

(** [os.path.join] for a directory without trailing separator and a
    relative file name, the only way the source calls it. *)
Definition path_join (dir name : string) : string := dir +:+ "/" +:+ name.

Definition required_fields : list string :=
  ["user_id"; "pdf_url"; "customer_name"; "address"; "city"; "country";
   "postal_code"; "email"].

(** ** The outside world *)

(** [requests_get] takes the value of [data["pdf_url"]] as it is, a string
    or not; [uuid4_hex n] is the [hex] of the [n]-th [uuid4()] of the
    process. [fs_writable path] tells whether opening [path] for writing
    and the write that follows both go through; when they do not,
    [fs_partial path] tells what happened: [None] when the file could not
    be opened, [Some written] when it was opened, and so emptied, and the
    write raised with [written] on the disk. [stdout_encodes text] tells
    whether [print] can write [text]. *)

(** The request is made with [stream=True]: the body is read when
    [response.content] is evaluated, and [content] is [None] when that
    read raises. *)
Inductive get_outcome : Type :=
| GetRaised
| GetResponse (status_code : Z) (content : option (list Byte.byte)).

(** [json_body] is [None] when [response.json()] raises. *)
Inductive post_outcome : Type :=
| PostRaised
| PostResponse (status_code : Z) (json_body : option json).

Record env : Type := {
  GELATO_API_KEY : option string;
  GELATO_PRODUCT_ID : option string;
  requests_get : json -> get_outcome;
  requests_post : string -> option string -> json -> post_outcome;
  uuid4_hex : nat -> string;
  fs_writable : string -> bool;
  fs_partial : string -> option (list Byte.byte);
  stdout_encodes : string -> bool;
  py_format : json -> string
}.

(** What the trace records: entry into each helper, and each HTTP request. *)
Inductive event : Type :=
| Call_download_pdf (url : json)
| Call_ensure_correct_page_count (pdf_path output_path : string)
| Call_upload_binary (file_path s3_key : string)
| Call_order_book_with_gelato (pdf_url : string)
| Http_get (url : json)
| Http_post (url : string) (payload : json).

Definition is_call_upload (ev : event) : bool :=
  match ev with Call_upload_binary _ _ => true | _ => false end.
Definition is_call_submit (ev : event) : bool :=
  match ev with
  | Call_order_book_with_gelato _ | Http_post _ _ => true
  | _ => false
  end.
Definition never (p : event -> bool) (evs : list event) : Prop :=
  forallb (fun ev => negb (p ev)) evs = true.

(** ** PyMuPDF *)

(** The part of PyMuPDF the source uses, over the library's own type of
    documents:
    - [pdf_load]: what [fitz.open(path)] makes of the bytes of a file,
      [None] when it raises;
    - [page_count]: [len(doc)];
    - [empty_pdf]: [fitz.open()], a new document;
    - [insert_pdf doc src]: the document after [doc.insert_pdf(src)],
      [None] when the call raises;
    - [pdf_savable]: whether [doc.save] accepts the document. That
      [doc.save] refuses the path the document was opened from does not
      depend on the document and is part of [doc_save] below. *)
Class Fitz (document : Type) : Type := {
  pdf_load : list Byte.byte -> option document;
  page_count : document -> nat;
  empty_pdf : document;
  insert_pdf : document -> document -> option document;
  pdf_savable : document -> bool
}.

(** ** The program *)

Section App.

Context {document : Type} `{!Fitz document}.
Variable E : env.

(** A file is either raw bytes written by the fetcher or a document written
    by [doc.save]. *)
Inductive file : Type :=
| Blob (content : list Byte.byte)
| Pdf (d : document).

Record state : Type := mkState {
  files : gmap string file;
  uuid_calls : nat;
  trace : list event
}.

Definition M (A : Type) : Type := state -> result A * state.

Definition ret {A} (a : A) : M A := fun s => (Return a, s).

Definition bind {A B} (c : M A) (k : A -> M B) : M B :=
  fun s =>
    match c s with
    | (Return a, s') => k a s'
    | (Raise e, s') => (Raise e, s')
    end.

Definition raise {A} (e : exn) : M A := fun s => (Raise e, s).

(** [try: c  except Exception as e: h e] *)
Definition try_except {A} (c : M A) (h : exn -> M A) : M A :=
  fun s =>
    match c s with
    | (Return a, s') => (Return a, s')
    | (Raise e, s') => h e s'
    end.

#[global] Instance M_ret : MRet M := @ret.
#[global] Instance M_bind : MBind M := fun A B k c => bind c k.

Definition log (ev : event) : M unit :=
  fun s => (Return tt, mkState (files s) (uuid_calls s) (trace s ++ [ev])).

(** *** Library calls *)

(** [requests.get(url, stream=True)] *)
Definition http_get (url : json) : M (Z * option (list Byte.byte)) :=
  log (Http_get url);;
  match requests_get E url with
  | GetRaised => raise RequestException
  | GetResponse status_code content => mret (status_code, content)
  end.

(** [open(path, "wb")]: the file is created or emptied. *)
Definition open_wb (path : string) : M unit :=
  fun s =>
    if fs_writable E path || bool_decide (is_Some (fs_partial E path))
    then (Return tt, mkState (<[path := Blob []]> (files s)) (uuid_calls s) (trace s))
    else (Raise OSError, s).

(** [response.content] *)
Definition response_content (content : option (list Byte.byte))
  : M (list Byte.byte) :=
  match content with
  | Some body => mret body
  | None => raise RequestException
  end.

(** [file.write(body)] on the file opened at [path]. *)
Definition file_write (path : string) (body : list Byte.byte) : M unit :=
  fun s =>
    if fs_writable E path
    then (Return tt, mkState (<[path := Blob body]> (files s)) (uuid_calls s) (trace s))
    else (Raise OSError,
          mkState (<[path := Blob (default [] (fs_partial E path))]> (files s))
            (uuid_calls s) (trace s)).

(** [print(f"...{text}")], for a text that comes from outside. *)
Definition print_value (text : string) : M unit :=
  fun s =>
    if stdout_encodes E text then (Return tt, s)
    else (Raise UnicodeEncodeError, s).

(** [f"{v}"] *)
Definition fstr (v : json) : string :=
  match v with
  | JStr s => s
  | _ => py_format E v
  end.

(** The document a path holds, if it holds one. *)
Definition stored_document (fs : gmap string file) (path : string)
  : option document :=
  match fs !! path with
  | Some (Blob content) => pdf_load content
  | Some (Pdf d) => Some d
  | None => None
  end.

(** [fitz.open(path)] *)
Definition fitz_open (path : string) : M document :=
  fun s =>
    match stored_document (files s) path with
    | Some d => (Return d, s)
    | None => (Raise FitzError, s)
    end.

(** [doc.insert_pdf(src)]; the document is updated in place, so the caller
    goes on with the returned one. *)
Definition doc_insert_pdf (doc src : document) : M document :=
  match insert_pdf doc src with
  | Some doc' => mret doc'
  | None => raise FitzError
  end.

(** [doc.save(path)] for a document opened from [name]: PyMuPDF refuses a
    save that is not incremental onto the path the document came from. *)
Definition doc_save (doc : document) (name path : string) : M unit :=
  fun s =>
    if negb (String.eqb path name) && (pdf_savable doc && fs_writable E path)
    then (Return tt, mkState (<[path := Pdf doc]> (files s)) (uuid_calls s) (trace s))
    else (Raise FitzError, s).

(** [uuid.uuid4().hex[:8]] behind a prefix, as in [f"order-{...}"]. *)
Definition fresh_ref (prefix : string) : M string :=
  fun s =>
    (Return (prefix +:+ first8 (uuid4_hex E (uuid_calls s))),
     mkState (files s) (S (uuid_calls s)) (trace s)).

(** [requests.post(GELATO_API_URL, headers=HEADERS, json=payload, timeout=30)];
    a timeout is one of the ways the call raises. *)
Definition http_post (payload : json) : M (Z * option json) :=
  log (Http_post GELATO_API_URL payload);;
  match requests_post E GELATO_API_URL (GELATO_API_KEY E) payload with
  | PostRaised => raise RequestException
  | PostResponse status_code json_body => mret (status_code, json_body)
  end.

(** [response.json()] *)
Definition response_json (json_body : option json) : M json :=
  match json_body with
  | Some v => mret v
  | None => raise RequestException
  end.

(** [d[k]] on the request dict. *)
Definition getitem (d : gmap string json) (k : string) : M json :=
  match d !! k with
  | Some v => mret v
  | None => raise (KeyError k)
  end.

(** [v[k]] with a string key on any parsed JSON value. *)
Definition subscript (v : json) (k : string) : M json :=
  match v with
  | JObj members =>
      match assoc k members with
      | Some x => mret x
      | None => raise (KeyError k)
      end
  | _ => raise TypeError
  end.

(** [v.split()] *)
Definition str_split (v : json) : M (list string) :=
  match v with
  | JStr s => mret (py_split s)
  | _ => raise AttributeError
  end.

(** [l[0]] and [l[-1]] *)
Definition item_first (l : list string) : M string :=
  match l with
  | x :: _ => mret x
  | [] => raise IndexError
  end.

Definition item_last (l : list string) : M string :=
  match last l with
  | Some x => mret x
  | None => raise IndexError
  end.

(** *** [download_pdf] *)

Definition download_pdf (url : json) : M (option string) :=
  log (Call_download_pdf url);;
  try_except
    ('(status_code, content) ← http_get url;
     if status_code =? 200 then
       let pdf_path := path_join TEMP_DIR "input.pdf" in
       open_wb pdf_path;;
       body ← response_content content;
       file_write pdf_path body;;
       mret (Some pdf_path)
     else mret None)
    (fun _ => mret None).

(** *** [ensure_correct_page_count] *)

(** The [while page_count < 39] loop, by recursion on the number of rounds
    left; [while_below_39_unfold] below is the loop's own equation. *)
Fixpoint pad (rounds : nat) (doc : document) (count : nat) : M (document * nat) :=
  match rounds with
  | O => mret (doc, count)
  | S rounds' =>
      doc' ← doc_insert_pdf doc empty_pdf;
      pad rounds' doc' (count + 1)%nat
  end.

Definition while_below_39 (doc : document) (count : nat) : M (document * nat) :=
  pad (39 - count)%nat doc count.

(** [page_count] is the local counter of the source, started at [len(doc)]
    and incremented by the loop; [doc.close()] leaves nothing to model. *)
Definition ensure_correct_page_count (pdf_path output_path : string)
  : M (option string * option nat) :=
  log (Call_ensure_correct_page_count pdf_path output_path);;
  try_except
    (doc ← fitz_open pdf_path;
     '(doc, count) ← while_below_39 doc (page_count doc);
     doc_save doc pdf_path output_path;;
     mret (Some output_path, Some count))
    (fun _ => mret (None, None)).

(** *** [upload_binary] *)

Definition upload_binary (file_path s3_key : string) : M string :=
  log (Call_upload_binary file_path s3_key);;
  let s3_url := "https://mock-s3-bucket.com/" +:+ s3_key in
  print_value s3_url;;
  mret s3_url.

(** *** [order_book_with_gelato] *)

Definition product_uid : json :=
  match GELATO_PRODUCT_ID E with
  | Some uid => JStr uid
  | None => JNull
  end.

(** The dict literal [payload], its entries evaluated top to bottom. *)
Definition build_payload (pdf_url : string) (customer_data : gmap string json)
  : M json :=
  order_ref ← fresh_ref "order-";
  customer_ref ← fresh_ref "customer-";
  item_ref ← fresh_ref "item-";
  company_name ← getitem customer_data "customer_name";
  first_name ← (name ← getitem customer_data "customer_name";
                tokens ← str_split name;
                item_first tokens);
  last_name ← (name ← getitem customer_data "customer_name";
               tokens ← str_split name;
               item_last tokens);
  address ← getitem customer_data "address";
  city ← getitem customer_data "city";
  post_code ← getitem customer_data "postal_code";
  country ← getitem customer_data "country";
  email ← getitem customer_data "email";
  mret (JObj
    [("orderType", JStr "order");
     ("orderReferenceId", JStr order_ref);
     ("customerReferenceId", JStr customer_ref);
     ("currency", JStr "USD");
     ("items", JArr
        [JObj
           [("itemReferenceId", JStr item_ref);
            ("productUid", product_uid);
            ("files", JArr [JObj [("type", JStr "default"); ("url", JStr pdf_url)]]);
            ("quantity", JNum 1);
            ("pageCount", JNum 39)]]);
     ("shipmentMethodUid", JStr "standard");
     ("shippingAddress", JObj
        [("companyName", company_name);
         ("firstName", JStr first_name);
         ("lastName", JStr last_name);
         ("addressLine1", address);
         ("city", city);
         ("state", JStr "");
         ("postCode", post_code);
         ("country", country);
         ("email", email)])]).

(** The [try] block: the request, the status test, the two reads of the
    parsed body ([response.json()] and the [order_data['id']] of the log
    line) and the [print] of that line, all under the same handler. *)
Definition submit (payload : json) : M (option json) :=
  try_except
    ('(status_code, json_body) ← http_post payload;
     if status_code =? 201 then
       order_data ← response_json json_body;
       order_id ← subscript order_data "id";
       print_value (fstr order_id);;
       mret (Some order_data)
     else mret None)
    (fun _ => mret None).

Definition order_book_with_gelato (pdf_url : string)
    (customer_data : gmap string json) : M (option json) :=
  log (Call_order_book_with_gelato pdf_url);;
  payload ← build_payload pdf_url customer_data;
  submit payload.

(** *** [order_book] *)

Record response : Type := mkResponse {
  body : json;
  status : Z
}.

(** [jsonify({"error": msg}), code] *)
Definition error_response (msg : string) (code : Z) : response :=
  mkResponse (JObj [("error", JStr msg)]) code.

(** [field in data], which raises [TypeError] on a value that is not
    iterable. *)
Definition contains (field : string) (data : request_json) : M bool :=
  match holds_field field data with
  | Some present => mret present
  | None => raise TypeError
  end.

(** The [for field in required_fields] loop: the first field that is not
    in [data], if any. *)
Fixpoint missing_field (fields : list string) (data : request_json)
  : M (option string) :=
  match fields with
  | [] => mret None
  | field :: rest =>
      present ← contains field data;
      if (present : bool) then missing_field rest data else mret (Some field)
  end.

(** The same loop on a dict: the first field that is not a key, if any. *)
Fixpoint first_missing (fields : list string) (data : gmap string json)
  : option string :=
  match fields with
  | [] => None
  | field :: rest =>
      match data !! field with
      | None => Some field
      | Some _ => first_missing rest data
      end
  end.

(** [not p] for a value that is a path or [None]. *)
Definition not_path (p : option string) : bool :=
  match p with
  | Some path => String.eqb path ""
  | None => true
  end.

(** [not order] for a value that is parsed JSON or [None]. *)
Definition not_order (order : option json) : bool :=
  match order with
  | Some v => negb (truthy v)
  | None => true
  end.

(** [actual_page_count != 39] *)
Definition count_differs_39 (count : option nat) : bool :=
  match count with
  | Some n => negb (n =? 39)%nat
  | None => true
  end.

(** Lines 140 to 166, for a body that is a dict. Past a [not_path] test the
    option holds a path, which [default ""] reads out. *)
Definition fulfil (data : gmap string json) : M response :=
  url ← getitem data "pdf_url";
  pdf_path ← download_pdf url;
  if not_path pdf_path then
    mret (error_response "Failed to download PDF" 500)
  else
    '(corrected_pdf_path, actual_page_count) ←
      ensure_correct_page_count (default "" pdf_path)
        (path_join PDF_DIR "gelato_ready.pdf");
    if not_path corrected_pdf_path || count_differs_39 actual_page_count then
      mret (error_response "Failed to generate a correctly formatted PDF" 500)
    else
      uploaded ←
        try_except
          (user_id ← getitem data "user_id";
           let s3_pdf_key := fstr user_id +:+ "/pdf/gelato_ready.pdf" in
           gelato_pdf_url ← upload_binary (default "" corrected_pdf_path) s3_pdf_key;
           mret (Some gelato_pdf_url))
          (fun _ => mret None);
      match uploaded with
      | None => mret (error_response "Failed to upload PDF" 500)
      | Some gelato_pdf_url =>
          order ← order_book_with_gelato gelato_pdf_url data;
          if not_order order then
            mret (error_response "Failed to place book order" 500)
          else
            order_id ← subscript (default JNull order) "id";
            mret (mkResponse
                    (JObj
                       [("message", JStr "Book order created successfully!");
                        ("order_id", order_id);
                        ("gelato_pdf_url", JStr gelato_pdf_url)])
                    200)
      end.

(** The [print] of line 131. A dict, a list, a number, a boolean and
    [None] are written as their [repr], which escapes what the standard
    output cannot encode; a string is written as it is. *)
Definition print_request (data : request_json) : M unit :=
  match data with
  | RStr s => print_value s
  | _ => mret tt
  end.

(** The handler, from the parsed body on. A body that passes the loop
    without being a dict is a list or a string, on which [data["pdf_url"]]
    raises [TypeError]. *)
Definition order_book (data : request_json) : M response :=
  print_request data;;
  missing ← missing_field required_fields data;
  match missing with
  | Some field => mret (error_response ("Missing field: " +:+ field) 400)
  | None =>
      match data with
      | Dict d => fulfil d
      | _ => raise TypeError
      end
  end.

(** *** Vocabulary of the statements *)

(** The first field that is not in a body, for the bodies on which the
    test does not raise. *)
Fixpoint first_absent (fields : list string) (data : request_json)
  : option string :=
  match fields with
  | [] => None
  | field :: rest =>
      match holds_field field data with
      | Some true => first_absent rest data
      | _ => Some field
      end
  end.


(** The GET raised, or answered with a status other than 200. *)
Definition fetch_failed (url : json) : Prop :=
  requests_get E url = GetRaised \/
  exists status_code content,
    requests_get E url = GetResponse status_code content /\ status_code <> 200.

(** The POST raised, or answered with a status other than 201. *)
Definition submit_failed (payload : json) : Prop :=
  requests_post E GELATO_API_URL (GELATO_API_KEY E) payload = PostRaised \/
  exists status_code json_body,
    requests_post E GELATO_API_URL (GELATO_API_KEY E) payload
    = PostResponse status_code json_body /\ status_code <> 201.

(** The state once an event is on the trace. *)
Definition logged (ev : event) (s : state) : state :=
  mkState (files s) (uuid_calls s) (trace s ++ [ev]).

(** The state once [doc.save(output_path)] has written the document. *)
Definition saved (output_path : string) (doc : document) (s : state) : state :=
  mkState (<[output_path := Pdf doc]> (files s)) (uuid_calls s) (trace s).

(** The state once the three references of a payload have been drawn. *)
Definition drawn3 (s : state) : state :=
  mkState (files s) (S (S (S (uuid_calls s)))) (trace s).

(** The payload, when the name has at least one token and the five address
    fields are there. *)
Definition payload_of (pdf_url : string) (uuid_base : nat)
    (company_name : json) (first_name last_name : string)
    (address city post_code country email : json) : json :=
  JObj
    [("orderType", JStr "order");
     ("orderReferenceId", JStr ("order-" +:+ first8 (uuid4_hex E uuid_base)));
     ("customerReferenceId",
      JStr ("customer-" +:+ first8 (uuid4_hex E (S uuid_base))));
     ("currency", JStr "USD");
     ("items", JArr
        [JObj
           [("itemReferenceId",
             JStr ("item-" +:+ first8 (uuid4_hex E (S (S uuid_base)))));
            ("productUid", product_uid);
            ("files", JArr [JObj [("type", JStr "default"); ("url", JStr pdf_url)]]);
            ("quantity", JNum 1);
            ("pageCount", JNum 39)]]);
     ("shipmentMethodUid", JStr "standard");
     ("shippingAddress", JObj
        [("companyName", company_name);
         ("firstName", JStr first_name);
         ("lastName", JStr last_name);
         ("addressLine1", address);
         ("city", city);
         ("state", JStr "");
         ("postCode", post_code);
         ("country", country);
         ("email", email)])].

(** The handler from the call of [order_book_with_gelato] on. *)
Definition respond (gelato_pdf_url : string) data : M response :=
  order ← order_book_with_gelato gelato_pdf_url data;
  if not_order order then
    mret (error_response "Failed to place book order" 500)
  else
    order_id ← subscript (default JNull order) "id";
    mret (mkResponse
            (JObj
               [("message", JStr "Book order created successfully!");
                ("order_id", order_id);
                ("gelato_pdf_url", JStr gelato_pdf_url)])
            200).

Definition input_path : string := path_join TEMP_DIR "input.pdf".
Definition ready_path : string := path_join PDF_DIR "gelato_ready.pdf".

(** Validation, fetch, normalization and publication of the request [data]
    all went through, starting in [s]: the handler stands in state [s3]
    before the call of [order_book_with_gelato], with the asset URL
    [gelato_pdf_url]. *)
Definition reaches_submit (data : gmap string json) (s : state)
    (gelato_pdf_url : string) (s3 : state) : Prop :=
  Forall (fun f => is_Some (data !! f)) required_fields /\
  exists (url user_id : json) (s1 s2 : state),
    data !! "pdf_url" = Some url /\
    data !! "user_id" = Some user_id /\
    download_pdf url s = (Return (Some input_path), s1) /\
    ensure_correct_page_count input_path ready_path s1
    = (Return (Some ready_path, Some 39%nat), s2) /\
    upload_binary ready_path (fstr user_id +:+ "/pdf/gelato_ready.pdf") s2
    = (Return gelato_pdf_url, s3).

End App.

Arguments file : clear implicits.
Arguments state : clear implicits.
Arguments M : clear implicits.

(** ** PyMuPDF as documented, on toy pages

    [fitz.open()] without a file creates a new, empty PDF, and
    [Document.insert_pdf(docsrc)] copies the pages of [docsrc] behind the
    last page of the document. A page is a number; a file of [n] bytes
    loads as the document whose pages are those bytes, an empty file is no
    PDF, and a document without pages cannot be saved. *)
Module Reference.

Definition document : Type := list nat.

#[export] Instance fitz : Fitz document := {|
  pdf_load content :=
    match content with
    | [] => None
    | _ => Some (map Byte.to_nat content)
    end;
  page_count d := length d;
  empty_pdf := [];
  insert_pdf d src := Some (app d src);
  pdf_savable d := match d with [] => false | _ => true end
|}.

(** A world with the given answers of the peer and of the provider and the
    given standard output, on a disk that takes every write. *)
Definition make_world (get : get_outcome) (post : post_outcome)
    (stdout : string -> bool) : env := {|
  GELATO_API_KEY := Some "key";
  GELATO_PRODUCT_ID := Some "photobook";
  requests_get _ := get;
  requests_post _ _ _ := post;
  uuid4_hex _ := "0123456789abcdef0123456789abcdef";
  fs_writable _ := true;
  fs_partial _ := None;
  stdout_encodes := stdout;
  py_format _ := "?"
|}.

(** A peer that serves a file of [pages] bytes, and a provider that answers
    every order with [post_status] and the body [{"id": "ord-1"}]. *)
Definition world (pages : nat) (post_status : Z) : env :=
  make_world (GetResponse 200 (Some (replicate pages Byte.x01)))
    (PostResponse post_status (Some (JObj [("id", JStr "ord-1")])))
    (fun _ => true).


Definition request (customer_name : string) : gmap string json :=
  list_to_map
    [("user_id", JStr "u1");
     ("pdf_url", JStr "https://example.org/book.pdf");
     ("customer_name", JStr customer_name);
     ("address", JStr "1 Road");
     ("city", JStr "Oslo");
     ("country", JStr "NO");
     ("postal_code", JStr "0150");
     ("email", JStr "p@example.org")].

Definition start : state document := mkState ∅ 0 [].

(** The disk after a document of [pages] pages was put at [path]. *)
Definition disk_with (path : string) (pages : nat) : state document :=
  mkState {[ path := Pdf (seq 0 pages) ]} 0 [].

Definition book_url : json := JStr "https://example.org/book.pdf".
Definition asset_url : string := "https://mock-s3-bucket.com/u1/pdf/gelato_ready.pdf".

(** The handler's state before the call of [order_book_with_gelato], for a
    request served in the world [w]. *)
Definition at_fetch (w : env) : state document :=
  snd (download_pdf w book_url start).
Definition at_ready (w : env) : state document :=
  snd (ensure_correct_page_count w input_path ready_path (at_fetch w)).
Definition at_submit (w : env) : state document :=
  snd (upload_binary w ready_path "u1/pdf/gelato_ready.pdf" (at_ready w)).

(** The payload built there, and the state after building it. *)
Definition built (w : env) (customer_name : string) : result json * state document :=
  build_payload w asset_url (request customer_name)
    (logged (Call_order_book_with_gelato asset_url) (at_submit w)).
Definition built_payload (w : env) (customer_name : string) : json :=
  match fst (built w customer_name) with
  | Return payload => payload
  | Raise _ => JNull
  end.

(** A provider that answers every order with 201 and the given body, behind
    a peer that serves a file of 39 bytes. *)
Definition world_with_body (json_body : option json) : env :=
  make_world (GetResponse 200 (Some (replicate 39 Byte.x01)))
    (PostResponse 201 json_body) (fun _ => true).




(** A peer whose answer is 200 with a body that cannot be read. *)
Definition world_lost_body : env :=
  make_world (GetResponse 200 None) PostRaised (fun _ => true).


(** A request whose customer name is any JSON value. *)
Definition request_named (customer_name : json) : gmap string json :=
  <["customer_name" := customer_name]> (request "").

(** The answer to a request that went through in [world 39 201]. *)
Definition created_response : response :=
  mkResponse
    (JObj [("message", JStr "Book order created successfully!");
           ("order_id", JStr "ord-1");
           ("gelato_pdf_url", JStr asset_url)])
    200.

End Reference.

(** * Properties *)

(** ** [str.split()] *)

Lemma split_from_space (ws rest : string) :
  all_space ws = true ->
  split_from [] (ws +:+ rest) = split_from [] rest.
Proof.
  induction ws as [|c ws IH]; simpl; intros Hws; [reflexivity|].
  apply andb_prop in Hws as [Hc Hws]. rewrite Hc. auto.
Qed.

Lemma split_from_token (tok rest : string) (cur : list ascii) :
  no_space tok = true ->
  split_from cur (tok +:+ rest)
  = split_from (rev (list_ascii_of_string tok) ++ cur) rest.
Proof.
  revert cur. induction tok as [|c tok IH]; simpl; intros cur Htok; [reflexivity|].
  apply andb_prop in Htok as [Hc Htok].
  apply negb_true_iff in Hc. rewrite Hc, IH by assumption.
  now rewrite <- app_assoc.
Qed.

Lemma split_from_trailing (ws : string) (c : ascii) (cur : list ascii) :
  all_space ws = true ->
  split_from (c :: cur) ws = [string_of_list_ascii (rev (c :: cur))].
Proof.
  induction ws as [|w ws IH]; simpl; intros Hws; [reflexivity|].
  apply andb_prop in Hws as [Hw Hws]. rewrite Hw.
  destruct ws as [|w' ws']; [reflexivity|].
  simpl in *. apply andb_prop in Hws as [Hw' Hws']. rewrite Hw'.
  f_equal. clear IH Hw. revert w' Hw' Hws'.
  induction ws' as [|x xs IHx]; simpl; intros; [reflexivity|].
  apply andb_prop in Hws' as [Hx Hxs]. rewrite Hx. eauto.
Qed.

Lemma py_split_all_space (s : string) :
  all_space s = true -> py_split s = [].
Proof.
  unfold py_split. induction s as [|c s IH]; simpl; intros Hs; [reflexivity|].
  apply andb_prop in Hs as [Hc Hs]. rewrite Hc. auto.
Qed.

Lemma py_split_single_token (before tok after : string) :
  all_space before = true -> all_space after = true ->
  no_space tok = true -> tok <> "" ->
  py_split (before +:+ tok +:+ after) = [tok].
Proof.
  intros Hb Ha Ht Hne. unfold py_split.
  rewrite split_from_space, split_from_token by assumption.
  rewrite app_nil_r.
  destruct tok as [|c tok]; [congruence|].
  destruct (rev (list_ascii_of_string (String c tok))) as [|x xs] eqn:Hrev.
  - apply (f_equal (@length _)) in Hrev. rewrite length_rev in Hrev. discriminate.
  - rewrite split_from_trailing by assumption.
    rewrite <- Hrev, rev_involutive, string_of_list_ascii_of_string. reflexivity.
Qed.

(** ** The helpers *)

Section Properties.

Context {document : Type} `{!Fitz document}.
Variable E : env.

Implicit Types (s : state document) (data : gmap string json) (doc : document).

Ltac run :=
  unfold mbind, M_bind, mret, M_ret, bind, ret, raise, try_except, log in *;
  simpl in *.

(** *** Validation *)

Lemma first_missing_none (fields : list string) data :
  first_missing fields data = None <->
  Forall (fun f => is_Some (data !! f)) fields.
Proof.
  induction fields as [|f fields IH]; simpl.
  - split; [constructor | reflexivity].
  - destruct (data !! f) as [v|] eqn:Hf.
    + rewrite IH. split.
      * intros Hrest. constructor; [eauto | assumption].
      * intros Hall. now inversion Hall.
    + split; [discriminate|]. intros Hall. inversion Hall as [|? ? [v Hv] ?].
      congruence.
Qed.

Lemma first_missing_some (fields : list string) data (f : string) :
  first_missing fields data = Some f <->
  exists before after : list string,
    fields = (before ++ f :: after)%list /\ data !! f = None /\
    Forall (fun g => is_Some (data !! g)) before.
Proof.
  induction fields as [|g fields IH]; simpl.
  - split; [discriminate|]. intros (before & after & Heq & _).
    destruct before; discriminate.
  - destruct (data !! g) as [v|] eqn:Hg.
    + rewrite IH. split.
      * intros (before & after & -> & Hf & Hall).
        exists (g :: before), after. repeat split; [assumption|].
        constructor; [eauto | assumption].
      * intros (before & after & Heq & Hf & Hall).
        destruct before as [|b before]; simpl in Heq.
        -- injection Heq as -> _. congruence.
        -- injection Heq as -> ->. exists before, after.
           repeat split; [assumption|]. now inversion Hall.
    + split.
      * intros [= <-]. exists [], fields. repeat split; [assumption | constructor].
      * intros (before & after & Heq & Hf & Hall).
        destruct before as [|b before]; simpl in Heq.
        -- now injection Heq as -> _.
        -- injection Heq as -> ->. inversion Hall as [|? ? [v Hv] ?]. congruence.
Qed.

(** *** The fetcher *)


Lemma download_pdf_fetched (url : json) s (content : list Byte.byte) :
  requests_get E url = GetResponse 200 (Some content) ->
  fs_writable E (path_join TEMP_DIR "input.pdf") = true ->
  download_pdf E url s
  = (Return (Some (path_join TEMP_DIR "input.pdf")),
     mkState (<[path_join TEMP_DIR "input.pdf" := Blob content]> (files s))
       (uuid_calls s) (trace s ++ [Call_download_pdf url; Http_get url])).
Proof.
  intros Hget Hw.
  unfold download_pdf, http_get, open_wb, response_content, file_write. run.
  rewrite Hget. simpl. unfold path_join in *. simpl in *. rewrite Hw. simpl.
  rewrite insert_insert_eq. now rewrite <- app_assoc.
Qed.

Lemma download_pdf_path (url : json) s (p : string) s' :
  download_pdf E url s = (Return (Some p), s') ->
  p = path_join TEMP_DIR "input.pdf".
Proof.
  unfold download_pdf, http_get, open_wb, response_content, file_write. run.
  destruct (requests_get E url) as [|st c]; simpl; [discriminate|].
  destruct (st =? 200); [|discriminate].
  destruct (fs_writable E _ || _); simpl; [|discriminate].
  destruct c as [body|]; simpl; [|discriminate].
  destruct (fs_writable E _); simpl; [|discriminate].
  now intros [= <- _].
Qed.

(** *** The normalizer *)

(** The equation of the [while] loop. *)
Lemma while_below_39_unfold doc (count : nat) :
  while_below_39 doc count
  = if (count <? 39)%nat
    then doc' ← doc_insert_pdf doc empty_pdf; while_below_39 doc' (count + 1)%nat
    else mret (doc, count).
Proof.
  unfold while_below_39. destruct (Nat.ltb_spec count 39) as [Hlt|Hge].
  - replace (39 - count)%nat with (S (39 - (count + 1)))%nat by lia. reflexivity.
  - replace (39 - count)%nat with 0%nat by lia. reflexivity.
Qed.

Lemma while_below_39_skip doc (count : nat) s :
  (39 <= count)%nat -> while_below_39 doc count s = (Return (doc, count), s).
Proof.
  intros Hge. rewrite while_below_39_unfold.
  destruct (Nat.ltb_spec count 39); [lia | reflexivity].
Qed.

(** What [rounds] rounds of the loop leave behind when no call raises and
    each [insert_pdf] of the empty document adds [grow] pages. *)
Lemma pad_returns (grow rounds : nat) doc (count : nat) s doc' (count' : nat) s' :
  (forall d d', insert_pdf d empty_pdf = Some d' ->
     page_count d' = (page_count d + grow)%nat) ->
  pad rounds doc count s = (Return (doc', count'), s') ->
  count' = (count + rounds)%nat /\ s' = s /\
  page_count doc' = (page_count doc + rounds * grow)%nat.
Proof.
  intros Hins. revert doc count.
  induction rounds as [|rounds IH]; simpl; intros doc count Hrun.
  - run. injection Hrun as <- <- <-. repeat split; lia.
  - unfold doc_insert_pdf in Hrun. run.
    destruct (insert_pdf doc empty_pdf) as [d1|] eqn:Hd1; simpl in Hrun; [|discriminate].
    apply IH in Hrun as (-> & -> & ->). rewrite (Hins _ _ Hd1).
    repeat split; lia.
Qed.

(** With 39 pages or more the loop body never runs: the document that was
    opened is the document that is saved. *)
Lemma ensure_without_padding (pdf_path output_path : string) s doc :
  stored_document (files s) pdf_path = Some doc ->
  (39 <= page_count doc)%nat ->
  ensure_correct_page_count E pdf_path output_path s
  = if negb (String.eqb output_path pdf_path)
       && (pdf_savable doc && fs_writable E output_path)
    then (Return (Some output_path, Some (page_count doc)),
          saved output_path doc (logged (Call_ensure_correct_page_count pdf_path output_path) s))
    else (Return (None, None), logged (Call_ensure_correct_page_count pdf_path output_path) s).
Proof.
  intros Hdoc Hge. unfold ensure_correct_page_count, fitz_open, doc_save. run.
  rewrite Hdoc. rewrite while_below_39_skip by assumption. simpl.
  destruct (negb (String.eqb output_path pdf_path)
            && (pdf_savable doc && fs_writable E output_path)); reflexivity.
Qed.

Lemma ensure_path (pdf_path output_path : string) s (p : string) count s' :
  ensure_correct_page_count E pdf_path output_path s = (Return (Some p, count), s') ->
  p = output_path.
Proof.
  unfold ensure_correct_page_count, fitz_open, doc_save. run.
  destruct (stored_document (files s) pdf_path) as [d|]; simpl; [|congruence].
  destruct (while_below_39 d (page_count d) _) as [[[d' n]|e] s1]; simpl; [|congruence].
  destruct (negb (String.eqb output_path pdf_path)
            && (pdf_savable d' && fs_writable E output_path)); simpl; congruence.
Qed.

(** The page total of the saved document, for a library in which each
    [insert_pdf] of the empty document adds [grow] pages. The count that is
    returned is the loop's own counter and does not depend on [grow]. *)
Lemma ensure_total_pages (grow : nat) (pdf_path output_path : string) s doc
    (p : string) (count : option nat) s' :
  (forall d d', insert_pdf d empty_pdf = Some d' ->
     page_count d' = (page_count d + grow)%nat) ->
  stored_document (files s) pdf_path = Some doc ->
  ensure_correct_page_count E pdf_path output_path s = (Return (Some p, count), s') ->
  count = Some (page_count doc + (39 - page_count doc))%nat /\
  exists doc',
    stored_document (files s') output_path = Some doc' /\
    page_count doc' = (page_count doc + (39 - page_count doc) * grow)%nat.
Proof.
  intros Hins Hdoc. unfold ensure_correct_page_count, fitz_open, doc_save. run.
  rewrite Hdoc. unfold while_below_39.
  destruct (pad _ doc (page_count doc) _) as [[[d' n]|e] s1] eqn:Hpad; simpl; [|congruence].
  apply (pad_returns grow _ _ _ _ _ _ _ Hins) in Hpad as (-> & -> & Hpages).
  destruct (negb (String.eqb output_path pdf_path)
            && (pdf_savable d' && fs_writable E output_path)); simpl; [|congruence].
  intros [= <- <- <-]. split; [reflexivity|].
  exists d'. split; [|assumption].
  unfold stored_document. simpl. now rewrite lookup_insert_eq.
Qed.

(** Were each round to add one page, a source of at most 39 pages would
    be saved with exactly 39. *)
Lemma ensure_pads_if_a_round_adds_a_page (pdf_path output_path : string) s doc
    (p : string) (count : option nat) s' :
  (forall d d', insert_pdf d empty_pdf = Some d' ->
     page_count d' = (page_count d + 1)%nat) ->
  stored_document (files s) pdf_path = Some doc ->
  (page_count doc <= 39)%nat ->
  ensure_correct_page_count E pdf_path output_path s = (Return (Some p, count), s') ->
  count = Some 39%nat /\
  exists doc',
    stored_document (files s') output_path = Some doc' /\ page_count doc' = 39%nat.
Proof.
  intros Hins Hdoc Hle Hrun.
  destruct (ensure_total_pages 1 _ _ _ _ _ _ _ Hins Hdoc Hrun) as (-> & doc' & Hout & Hn).
  split; [f_equal; lia|]. exists doc'. split; [assumption | lia].
Qed.

(** X15. PyMuPDF's [insert_pdf] copies the pages of its argument, and the
    argument here is a new document without pages: a round adds nothing.
    A source of fewer than 39 pages is then saved with the pages it had,
    while the count that is returned says 39. *)
Lemma ensure_keeps_pages_if_a_round_adds_none (pdf_path output_path : string) s doc
    (p : string) (count : option nat) s' :
  (forall d d', insert_pdf d empty_pdf = Some d' ->
     page_count d' = (page_count d + page_count (empty_pdf : document))%nat) ->
  page_count (empty_pdf : document) = 0%nat ->
  stored_document (files s) pdf_path = Some doc ->
  (page_count doc < 39)%nat ->
  ensure_correct_page_count E pdf_path output_path s = (Return (Some p, count), s') ->
  count = Some 39%nat /\
  exists doc',
    stored_document (files s') output_path = Some doc' /\
    page_count doc' = page_count doc.
Proof.
  intros Hins Hzero Hdoc Hlt Hrun. rewrite Hzero in Hins.
  destruct (ensure_total_pages 0 _ _ _ _ _ _ _ Hins Hdoc Hrun) as (-> & doc' & Hout & Hn).
  split; [f_equal; lia|]. exists doc'. split; [assumption | lia].
Qed.

(** *** The order submitter *)

Lemma submit_created (payload : json) s (order_data order_id : json) :
  requests_post E GELATO_API_URL (GELATO_API_KEY E) payload
  = PostResponse 201 (Some order_data) ->
  json_get "id" order_data = Some order_id ->
  stdout_encodes E (fstr E order_id) = true ->
  submit E payload s
  = (Return (Some order_data), logged (Http_post GELATO_API_URL payload) s).
Proof.
  intros Hpost Hid Hprint.
  unfold submit, http_post, response_json, subscript, print_value. run.
  rewrite Hpost. simpl.
  destruct order_data; simpl in Hid; try discriminate.
  rewrite Hid. simpl. now rewrite Hprint.
Qed.

Lemma submit_rejected (payload : json) s :
  submit_failed E payload ->
  submit E payload s = (Return None, logged (Http_post GELATO_API_URL payload) s).
Proof.
  intros Hfail. unfold submit, http_post. run.
  destruct Hfail as [-> | (st & b & -> & Hst)]; [reflexivity|].
  simpl. apply Z.eqb_neq in Hst. now rewrite Hst.
Qed.

(** Whatever the provider does, [submit] returns, and [Some] only with a
    parsed body that has an [id]. *)
Lemma submit_returns (payload : json) s :
  exists order : option json,
    submit E payload s = (Return order, logged (Http_post GELATO_API_URL payload) s) /\
    forall order_data, order = Some order_data ->
      exists order_id, json_get "id" order_data = Some order_id.
Proof.
  unfold submit, http_post, response_json, subscript, print_value. run.
  destruct (requests_post E _ _ payload) as [|st [od|]]; simpl;
    try (eexists; split; [reflexivity | discriminate]).
  - destruct (st =? 201); simpl;
      try (eexists; split; [reflexivity | discriminate]).
    destruct od; simpl; try (eexists; split; [reflexivity | discriminate]).
    destruct (assoc "id" members) as [v|] eqn:Hid; simpl.
    + destruct (stdout_encodes E (fstr E v)); simpl.
      * eexists; split; [reflexivity|]. intros ? [= <-]. simpl. eauto.
      * eexists; split; [reflexivity | discriminate].
    + eexists; split; [reflexivity | discriminate].
  - destruct (st =? 201); simpl; eexists; (split; [reflexivity | discriminate]).
Qed.

Lemma build_payload_built (pdf_url : string) data s (name first_name last_name : string)
    (rest : list string) (address city post_code country email : json) :
  data !! "customer_name" = Some (JStr name) ->
  py_split name = first_name :: rest ->
  last (first_name :: rest) = Some last_name ->
  data !! "address" = Some address ->
  data !! "city" = Some city ->
  data !! "postal_code" = Some post_code ->
  data !! "country" = Some country ->
  data !! "email" = Some email ->
  build_payload E pdf_url data s
  = (Return (payload_of E pdf_url (uuid_calls s) (JStr name) first_name last_name
               address city post_code country email),
     drawn3 s).
Proof.
  intros Hname Hsplit Hlast Ha Hc Hp Hco He.
  unfold build_payload, fresh_ref, getitem, str_split, item_first, item_last. run.
  rewrite Hname. simpl. rewrite Hsplit. simpl.
  rewrite Hlast. simpl.
  rewrite Ha. simpl. rewrite Hc. simpl. rewrite Hp. simpl. rewrite Hco. simpl.
  rewrite He. reflexivity.
Qed.

Lemma build_payload_no_token (pdf_url : string) data s (name : string) :
  data !! "customer_name" = Some (JStr name) ->
  py_split name = [] ->
  build_payload E pdf_url data s = (Raise IndexError, drawn3 s).
Proof.
  intros Hname Hsplit.
  unfold build_payload, fresh_ref, getitem, str_split, item_first. run.
  rewrite Hname. simpl. rewrite Hsplit. reflexivity.
Qed.

(** *** The endpoint *)

Lemma validation_passes data :
  Forall (fun f => is_Some (data !! f)) required_fields ->
  first_missing required_fields data = None.
Proof. apply first_missing_none. Qed.

(** On a dict the loop of the handler is [first_missing] and raises
    nothing. *)
Lemma missing_field_dict (fields : list string) data s :
  missing_field fields (Dict data) s = (Return (first_missing fields data), s).
Proof.
  induction fields as [|f fields IH]; simpl; [reflexivity|].
  unfold contains. run. destruct (data !! f) as [v|]; simpl; [exact IH | reflexivity].
Qed.

Lemma order_book_dict data s :
  order_book E (Dict data) s
  = match first_missing required_fields data with
    | Some field => (Return (error_response ("Missing field: " +:+ field) 400), s)
    | None => fulfil E data s
    end.
Proof.
  unfold order_book, print_request.
  unfold mbind, M_bind, bind at 1 2, mret at 1, M_ret at 1, ret at 1.
  rewrite missing_field_dict.
  destruct (first_missing required_fields data); reflexivity.
Qed.

Lemma order_book_at_submit data s (gelato_pdf_url : string) s3 :
  reaches_submit E data s gelato_pdf_url s3 ->
  order_book E (Dict data) s = respond E gelato_pdf_url data s3.
Proof.
  intros (Hall & url & user_id & s1 & s2 & Hurl & Huser & Hget & Hfix & Hup).
  rewrite order_book_dict, (validation_passes _ Hall). unfold fulfil.
  unfold getitem. rewrite Hurl, Huser.
  unfold mbind, M_bind, bind at 1 2, mret at 1, M_ret at 1, ret at 1.
  rewrite Hget.
  change (not_path (Some input_path)) with false. cbv iota.
  change (default "" (Some input_path)) with input_path.
  change (path_join PDF_DIR "gelato_ready.pdf") with ready_path.
  unfold bind at 1. rewrite Hfix.
  change (not_path (Some ready_path) || count_differs_39 (Some 39%nat)) with false.
  cbv iota.
  change (default "" (Some ready_path)) with ready_path.
  unfold bind at 1, try_except, bind at 1, mret at 1, M_ret at 1, ret at 1.
  unfold bind at 1. rewrite Hup. reflexivity.
Qed.

(** ** The claims *)

(** C8. Normalization is idempotent on a 39-page document: for a document
    that already has exactly 39 pages the normalizer succeeds, reports 39,
    and the document it saves is the document it opened; run again on its
    own output, towards a further path, it saves that same document once
    more. The output path differs from the path that is read, in both
    runs: PyMuPDF does not save a document onto the file it came from. *)
Theorem ensure_idempotent_on_39_pages (pdf_path output_path again_path : string)
    s doc :
  stored_document (files s) pdf_path = Some doc ->
  page_count doc = 39%nat ->
  pdf_savable doc = true ->
  output_path <> pdf_path ->
  fs_writable E output_path = true ->
  again_path <> output_path ->
  fs_writable E again_path = true ->
  exists s',
    ensure_correct_page_count E pdf_path output_path s
    = (Return (Some output_path, Some 39%nat), s') /\
    stored_document (files s') output_path = Some doc /\
    exists s'',
      ensure_correct_page_count E output_path again_path s'
      = (Return (Some again_path, Some 39%nat), s'') /\
      stored_document (files s'') again_path = Some doc.
Proof.
  intros Hdoc Hpages Hsave Hne Hw Hne2 Hw2.
  assert (Hstored : forall p s0,
    stored_document (files (saved p doc s0)) p = Some doc).
  { intros p s0. unfold stored_document. simpl. now rewrite lookup_insert_eq. }
  apply String.eqb_neq in Hne. apply String.eqb_neq in Hne2.
  eexists. split.
  - rewrite (ensure_without_padding _ _ _ doc) by (assumption || lia).
    rewrite Hne, Hsave, Hw, Hpages. reflexivity.
  - split; [apply Hstored|]. eexists. split.
    + rewrite (ensure_without_padding _ _ _ doc) by (apply Hstored || lia).
      rewrite Hne2, Hsave, Hw2, Hpages. reflexivity.
    + apply Hstored.
Qed.

(** C2. For a source document with more than 39 pages the normalizer adds
    and removes nothing (the document it saves is the one it opened, and the
    count it reports is that document's; asked to save onto the very path
    it read, it saves nothing at all), and the endpoint, having fetched
    such a document, answers 500 without calling the publisher or the
    submitter. *)
Theorem oversized_document_is_refused doc :
  (39 < page_count doc)%nat ->
  (forall (pdf_path output_path : string) s,
     stored_document (files s) pdf_path = Some doc ->
     pdf_savable doc = true ->
     fs_writable E output_path = true ->
     (output_path <> pdf_path ->
      exists s',
        ensure_correct_page_count E pdf_path output_path s
        = (Return (Some output_path, Some (page_count doc)), s') /\
        stored_document (files s') output_path = Some doc) /\
     (output_path = pdf_path ->
      exists s',
        ensure_correct_page_count E pdf_path output_path s
        = (Return (None, None), s') /\
        files s' = files s)) /\
  (forall data s (url : json) (content : list Byte.byte),
     Forall (fun f => is_Some (data !! f)) required_fields ->
     data !! "pdf_url" = Some url ->
     requests_get E url = GetResponse 200 (Some content) ->
     fs_writable E input_path = true ->
     pdf_load content = Some doc ->
     exists s' new,
       order_book E (Dict data) s
       = (Return (error_response "Failed to generate a correctly formatted PDF" 500), s') /\
       trace s' = (trace s ++ new)%list /\
       never is_call_upload new /\ never is_call_submit new).
Proof.
  intros Hbig. split.
  - intros pdf_path output_path s Hdoc Hsave Hw. split.
    + intros Hne. apply String.eqb_neq in Hne. eexists. split.
      * rewrite (ensure_without_padding _ _ _ doc) by (assumption || lia).
        rewrite Hne, Hsave, Hw. reflexivity.
      * unfold stored_document. simpl. now rewrite lookup_insert_eq.
    + intros ->. eexists. split.
      * rewrite (ensure_without_padding _ _ _ doc) by (assumption || lia).
        rewrite String.eqb_refl. reflexivity.
      * reflexivity.
  - intros data s url content Hall Hurl Hget Hw Hload.
    rewrite order_book_dict, (validation_passes _ Hall). unfold fulfil.
    unfold getitem. rewrite Hurl.
    unfold mbind, M_bind, bind at 1 2, mret at 1, M_ret at 1, ret at 1.
    rewrite (download_pdf_fetched _ _ content) by assumption.
    change (not_path (Some (path_join TEMP_DIR "input.pdf"))) with false. cbv iota.
    unfold bind at 1.
    rewrite (ensure_without_padding _ _ _ doc); [| |lia].
    2:{ unfold stored_document. simpl. rewrite lookup_insert_eq. assumption. }
    assert (Hcount : count_differs_39 (Some (page_count doc)) = true).
    { simpl. apply negb_true_iff, Nat.eqb_neq. lia. }
    destruct (negb _ && (pdf_savable doc && fs_writable E _)); cbv iota.
    + rewrite Hcount, orb_true_r. eexists. eexists. split; [reflexivity|].
      simpl. rewrite <- app_assoc. split; [reflexivity|]. split; reflexivity.
    + eexists. eexists. split; [reflexivity|].
      simpl. rewrite <- app_assoc. split; [reflexivity|]. split; reflexivity.
Qed.

(** On a body that is a dict, a list or a string the loop raises nothing
    and returns [first_absent]. *)
Lemma missing_field_iterable (fields : list string) (data : request_json) s :
  is_Some (holds_field "" data) ->
  missing_field fields data s = (Return (first_absent fields data), s).
Proof.
  intros Hiter. induction fields as [|f fields IH]; simpl; [reflexivity|].
  unfold contains. run.
  destruct data; simpl in *; try (destruct Hiter; discriminate);
    match goal with |- context [if ?b then _ else _] => destruct b end;
    simpl; auto.
Qed.






Lemma order_book_with_gelato_run (pdf_url : string) data s :
  order_book_with_gelato E pdf_url data s
  = match build_payload E pdf_url data (logged (Call_order_book_with_gelato pdf_url) s) with
    | (Return payload, s1) => submit E payload s1
    | (Raise e, s1) => (Raise e, s1)
    end.
Proof. reflexivity. Qed.

Lemma order_book_with_gelato_some (pdf_url : string) data s (order_data : json) s' :
  order_book_with_gelato E pdf_url data s = (Return (Some order_data), s') ->
  exists order_id, json_get "id" order_data = Some order_id.
Proof.
  rewrite order_book_with_gelato_run.
  destruct (build_payload E pdf_url data _) as [[payload|e] s1]; [|discriminate].
  destruct (submit_returns payload s1) as (order & -> & Hid).
  intros [= -> _]. now apply Hid.
Qed.

Lemma respond_created (gelato_pdf_url : string) data s (order_data order_id : json) s' :
  order_book_with_gelato E gelato_pdf_url data s = (Return (Some order_data), s') ->
  json_get "id" order_data = Some order_id ->
  respond E gelato_pdf_url data s
  = (Return (mkResponse
               (JObj
                  [("message", JStr "Book order created successfully!");
                   ("order_id", order_id);
                   ("gelato_pdf_url", JStr gelato_pdf_url)])
               200), s').
Proof.
  intros Hrun Hid. unfold respond, subscript. run. rewrite Hrun. simpl.
  destruct order_data as [| | | | |members]; simpl in Hid; try discriminate.
  destruct members as [|m members]; [discriminate|]. simpl.
  simpl in Hid. now rewrite Hid.
Qed.

Lemma respond_failed (gelato_pdf_url : string) data s s' :
  order_book_with_gelato E gelato_pdf_url data s = (Return None, s') ->
  respond E gelato_pdf_url data s
  = (Return (error_response "Failed to place book order" 500), s').
Proof. intros Hrun. unfold respond. run. now rewrite Hrun. Qed.

Lemma respond_raised (gelato_pdf_url : string) data s (e : exn) s' :
  order_book_with_gelato E gelato_pdf_url data s = (Raise e, s') ->
  respond E gelato_pdf_url data s = (Raise e, s').
Proof. intros Hrun. unfold respond. run. now rewrite Hrun. Qed.

(** C5. A customer name that is one token, with whitespace or nothing
    around it, does not make the order submitter raise, and the payload it
    posts carries that token as both [firstName] and [lastName] of the
    shipping address. *)
Theorem single_token_name_is_first_and_last (pdf_url : string) data s
    (before tok after : string) (address city post_code country email : json) :
  all_space before = true ->
  all_space after = true ->
  no_space tok = true ->
  tok <> "" ->
  data !! "customer_name" = Some (JStr (before +:+ tok +:+ after)) ->
  data !! "address" = Some address ->
  data !! "city" = Some city ->
  data !! "postal_code" = Some post_code ->
  data !! "country" = Some country ->
  data !! "email" = Some email ->
  exists (payload : json) (order : option json) s',
    order_book_with_gelato E pdf_url data s = (Return order, s') /\
    trace s'
    = (trace s ++ [Call_order_book_with_gelato pdf_url;
                   Http_post GELATO_API_URL payload])%list /\
    json_get "shippingAddress" payload ≫= json_get "firstName" = Some (JStr tok) /\
    json_get "shippingAddress" payload ≫= json_get "lastName" = Some (JStr tok).
Proof.
  intros Hb Ha Ht Hne Hname Haddr Hcity Hpost Hcountry Hemail.
  pose proof (py_split_single_token before tok after Hb Ha Ht Hne) as Hsplit.
  rewrite order_book_with_gelato_run.
  rewrite (build_payload_built _ _ _ (before +:+ tok +:+ after) tok tok []
             address city post_code country email)
    by (assumption || reflexivity).
  match goal with |- context [submit E ?p ?s1] =>
    destruct (submit_returns p s1) as (order & Hsubmit & _); exists p, order end.
  eexists. split; [exact Hsubmit|].
  simpl. rewrite <- app_assoc. repeat split.
Qed.

Lemma submit_unusable (payload : json) s (json_body : option json) :
  requests_post E GELATO_API_URL (GELATO_API_KEY E) payload
  = PostResponse 201 json_body ->
  (forall order_data order_id,
     json_body = Some order_data ->
     json_get "id" order_data = Some order_id ->
     stdout_encodes E (fstr E order_id) = false) ->
  submit E payload s = (Return None, logged (Http_post GELATO_API_URL payload) s).
Proof.
  intros Hpost Hbad.
  unfold submit, http_post, response_json, subscript, print_value. run.
  rewrite Hpost. simpl.
  destruct json_body as [order_data|]; simpl; [|reflexivity].
  destruct order_data; simpl; try reflexivity.
  destruct (assoc "id" members) as [order_id|] eqn:Hid; simpl; [|reflexivity].
  now rewrite (Hbad (JObj members) order_id eq_refl Hid).
Qed.

(** C6. Once the payload is built, a 201 whose parsed body carries an [id]
    that can be printed makes the submitter return that body, and the
    endpoint answers 200 with its [id]; a 201 whose body does not parse,
    has no [id], or has an [id] that cannot be printed, a raised request
    and any other status make the submitter return [None], and the
    endpoint answers 500 with the message "Failed to place book order". *)
Theorem submission_outcomes (gelato_pdf_url : string) data s3 (payload : json) s4 :
  build_payload E gelato_pdf_url data
    (logged (Call_order_book_with_gelato gelato_pdf_url) s3)
  = (Return payload, s4) ->
  (forall order_data order_id : json,
     requests_post E GELATO_API_URL (GELATO_API_KEY E) payload
     = PostResponse 201 (Some order_data) ->
     json_get "id" order_data = Some order_id ->
     stdout_encodes E (fstr E order_id) = true ->
     order_book_with_gelato E gelato_pdf_url data s3
     = (Return (Some order_data), logged (Http_post GELATO_API_URL payload) s4) /\
     forall s, reaches_submit E data s gelato_pdf_url s3 ->
       order_book E (Dict data) s
       = (Return (mkResponse
                    (JObj
                       [("message", JStr "Book order created successfully!");
                        ("order_id", order_id);
                        ("gelato_pdf_url", JStr gelato_pdf_url)])
                    200),
          logged (Http_post GELATO_API_URL payload) s4)) /\
  (forall json_body : option json,
     requests_post E GELATO_API_URL (GELATO_API_KEY E) payload
     = PostResponse 201 json_body ->
     (forall order_data order_id,
        json_body = Some order_data ->
        json_get "id" order_data = Some order_id ->
        stdout_encodes E (fstr E order_id) = false) ->
     order_book_with_gelato E gelato_pdf_url data s3
     = (Return None, logged (Http_post GELATO_API_URL payload) s4) /\
     forall s, reaches_submit E data s gelato_pdf_url s3 ->
       order_book E (Dict data) s
       = (Return (error_response "Failed to place book order" 500),
          logged (Http_post GELATO_API_URL payload) s4)) /\
  (submit_failed E payload ->
     order_book_with_gelato E gelato_pdf_url data s3
     = (Return None, logged (Http_post GELATO_API_URL payload) s4) /\
     forall s, reaches_submit E data s gelato_pdf_url s3 ->
       order_book E (Dict data) s
       = (Return (error_response "Failed to place book order" 500),
          logged (Http_post GELATO_API_URL payload) s4)).
Proof.
  intros Hbuild. split; [|split].
  - intros order_data order_id Hpost Hid Hprint.
    assert (Hrun : order_book_with_gelato E gelato_pdf_url data s3
                   = (Return (Some order_data), logged (Http_post GELATO_API_URL payload) s4)).
    { rewrite order_book_with_gelato_run, Hbuild.
      now apply (submit_created _ _ _ order_id). }
    split; [exact Hrun|]. intros s Hreach.
    rewrite (order_book_at_submit _ _ _ _ Hreach).
    now apply (respond_created _ _ _ order_data).
  - intros json_body Hpost Hbad.
    assert (Hrun : order_book_with_gelato E gelato_pdf_url data s3
                   = (Return None, logged (Http_post GELATO_API_URL payload) s4)).
    { rewrite order_book_with_gelato_run, Hbuild.
      now apply (submit_unusable _ _ json_body). }
    split; [exact Hrun|]. intros s Hreach.
    rewrite (order_book_at_submit _ _ _ _ Hreach).
    now apply respond_failed.
  - intros Hfail.
    assert (Hrun : order_book_with_gelato E gelato_pdf_url data s3
                   = (Return None, logged (Http_post GELATO_API_URL payload) s4)).
    { rewrite order_book_with_gelato_run, Hbuild. now apply submit_rejected. }
    split; [exact Hrun|]. intros s Hreach.
    rewrite (order_book_at_submit _ _ _ _ Hreach).
    now apply respond_failed.
Qed.

(** C7. When validation, fetch, normalization, publication and submission
    all succeed, the endpoint answers 200 with a body whose keys are
    [message], [order_id] and [gelato_pdf_url], in which [order_id] is the
    [id] of the provider's answer and [gelato_pdf_url] is the mock bucket's
    base followed by the key built from [user_id]. *)
Theorem success_is_a_200 data s (gelato_pdf_url : string) s3 (order_data : json) s4 :
  reaches_submit E data s gelato_pdf_url s3 ->
  order_book_with_gelato E gelato_pdf_url data s3 = (Return (Some order_data), s4) ->
  exists (order_id user_id : json) (r : response),
    order_book E (Dict data) s = (Return r, s4) /\
    status r = 200 /\
    body r = JObj [("message", JStr "Book order created successfully!");
                   ("order_id", order_id);
                   ("gelato_pdf_url", JStr gelato_pdf_url)] /\
    json_get "id" order_data = Some order_id /\
    data !! "user_id" = Some user_id /\
    gelato_pdf_url
    = "https://mock-s3-bucket.com/" +:+ (fstr E user_id +:+ "/pdf/gelato_ready.pdf").
Proof.
  intros Hreach Hrun.
  destruct (order_book_with_gelato_some _ _ _ _ _ Hrun) as [order_id Hid].
  pose proof Hreach as (_ & url & user_id & s1 & s2 & _ & Huser & _ & _ & Hup).
  exists order_id, user_id. eexists. split.
  - rewrite (order_book_at_submit _ _ _ _ Hreach).
    apply (respond_created _ _ _ order_data order_id); assumption.
  - repeat split; try assumption.
    unfold upload_binary, print_value in Hup. run.
    destruct (stdout_encodes E _); [|discriminate]. now injection Hup as <- _.
Qed.

(** C10. A request whose [customer_name] is empty or all whitespace passes
    validation, but once the earlier steps have gone through, building the
    payload raises [IndexError]; nothing catches it, so the endpoint raises
    instead of returning one of its JSON error responses, and no order is
    posted. *)
Theorem blank_name_raises data s (gelato_pdf_url : string) s3 (name : string) :
  reaches_submit E data s gelato_pdf_url s3 ->
  data !! "customer_name" = Some (JStr name) ->
  all_space name = true ->
  first_missing required_fields data = None /\
  exists s',
    order_book_with_gelato E gelato_pdf_url data s3 = (Raise IndexError, s') /\
    order_book E (Dict data) s = (Raise IndexError, s') /\
    trace s' = (trace s3 ++ [Call_order_book_with_gelato gelato_pdf_url])%list.
Proof.
  intros Hreach Hname Hblank. split.
  - apply validation_passes, Hreach.
  - assert (Hrun : order_book_with_gelato E gelato_pdf_url data s3
                   = (Raise IndexError,
                      drawn3 (logged (Call_order_book_with_gelato gelato_pdf_url) s3))).
    { rewrite order_book_with_gelato_run.
      now rewrite (build_payload_no_token _ _ _ name) by auto using py_split_all_space. }
    eexists. split; [exact Hrun|]. split; [|reflexivity].
    rewrite (order_book_at_submit _ _ _ _ Hreach). now apply respond_raised.
Qed.

(** ** Beyond the claims *)

(** *** More on [str.split()] *)

(** Splitting distributes over a whitespace character. *)
Lemma split_from_app_space (a b : string) (w : ascii) (cur : list ascii) :
  py_isspace w = true ->
  split_from cur (a +:+ String w b) = (split_from cur a ++ split_from [] b)%list.
Proof.
  intros Hw. revert cur. induction a as [|c a IH]; simpl; intros cur.
  - rewrite Hw. now destruct cur.
  - destruct (py_isspace c).
    + destruct cur; rewrite IH; reflexivity.
    + apply IH.
Qed.

Lemma py_split_app_space (a b : string) (w : ascii) :
  py_isspace w = true ->
  py_split (a +:+ String w b) = (py_split a ++ py_split b)%list.
Proof. apply split_from_app_space. Qed.

Lemma no_space_string_of_list (l : list ascii) :
  Forall (fun c => py_isspace c = false) l ->
  no_space (string_of_list_ascii l) = true.
Proof.
  induction 1 as [|c l Hc _ IH]; simpl; [reflexivity|]. now rewrite Hc, IH.
Qed.

(** No token is empty and no token holds whitespace. *)
Lemma split_from_tokens (s : string) (cur : list ascii) :
  Forall (fun c => py_isspace c = false) cur ->
  Forall (fun t => no_space t = true /\ t <> "") (split_from cur s).
Proof.
  assert (Htok : forall c cur,
    Forall (fun c => py_isspace c = false) (c :: cur) ->
    no_space (string_of_list_ascii (rev (c :: cur))) = true /\
    string_of_list_ascii (rev (c :: cur)) <> "").
  { intros c l Hl. split.
    - apply no_space_string_of_list, Forall_rev, Hl.
    - intros Heq. apply (f_equal list_ascii_of_string) in Heq.
      rewrite list_ascii_of_string_of_list_ascii in Heq.
      apply (f_equal (@length _)) in Heq. rewrite length_rev in Heq. discriminate. }
  revert cur. induction s as [|c s IH]; intros cur Hcur.
  - destruct cur as [|x cur]; [constructor|].
    unfold split_from. constructor; [now apply Htok | constructor].
  - cbn [split_from]. destruct (py_isspace c) eqn:Hc.
    + destruct cur as [|x cur]; [now apply IH|].
      constructor; [now apply Htok | now apply IH].
    + apply IH. now constructor.
Qed.

Lemma py_split_tokens (s : string) :
  Forall (fun t => no_space t = true /\ t <> "") (py_split s).
Proof. apply split_from_tokens. constructor. Qed.

(** *** The fetcher, whatever the peer and the disk do *)

Lemma download_pdf_cases (url : json) s :
  exists (r : option string) s',
    download_pdf E url s = (Return r, s') /\
    trace s' = (trace s ++ [Call_download_pdf url; Http_get url])%list /\
    uuid_calls s' = uuid_calls s /\
    ((exists content,
        r = Some input_path /\
        requests_get E url = GetResponse 200 (Some content) /\
        fs_writable E input_path = true /\
        files s' = <[input_path := Blob content]> (files s)) \/
     (r = None /\ files s' = files s /\
      (fetch_failed E url \/
       (fs_writable E input_path = false /\ fs_partial E input_path = None))) \/
     (r = None /\
      exists (content : option (list Byte.byte)) (left : list Byte.byte),
        requests_get E url = GetResponse 200 content /\
        files s' = <[input_path := Blob left]> (files s) /\
        ((content = None /\ left = []) \/
         (fs_writable E input_path = false /\
          fs_partial E input_path = Some left)))).
Proof.
  unfold download_pdf, http_get, open_wb, response_content, file_write, fetch_failed.
  run. rewrite <- app_assoc. simpl.
  destruct (requests_get E url) as [|st content]; simpl.
  { eexists. eexists. split; [reflexivity|]. repeat split.
    right. left. repeat split. auto. }
  destruct (Z.eqb_spec st 200) as [->|Hst].
  2:{ eexists. eexists. split; [reflexivity|]. repeat split.
      right. left. repeat split. left. right. eauto. }
  change (path_join TEMP_DIR "input.pdf") with input_path.
  destruct (fs_writable E input_path) eqn:Hw; simpl.
  - destruct content as [body|]; simpl.
    + eexists. eexists. split; [reflexivity|]. repeat split. left.
      exists body. repeat split. simpl. now rewrite insert_insert_eq.
    + eexists. eexists. split; [reflexivity|]. repeat split. right. right.
      split; [reflexivity|]. exists None, []. repeat split. now left.
  - destruct (fs_partial E input_path) as [written|] eqn:Hpart; simpl.
    + destruct content as [body|]; simpl.
      * eexists. eexists. split; [reflexivity|]. repeat split. right. right.
        split; [reflexivity|]. exists (Some body), written. repeat split.
        -- simpl. now rewrite insert_insert_eq.
        -- now right.
      * eexists. eexists. split; [reflexivity|]. repeat split. right. right.
        split; [reflexivity|]. exists None, []. repeat split. now left.
    + eexists. eexists. split; [reflexivity|]. repeat split.
      right. left. repeat split. now right.
Qed.


(** *** The normalizer, whatever the library does *)

Lemma pad_outcome (rounds : nat) doc (count : nat) s :
  snd (pad rounds doc count s) = s /\
  forall doc' count', fst (pad rounds doc count s) = Return (doc', count') ->
    count' = (count + rounds)%nat.
Proof.
  revert doc count. induction rounds as [|rounds IH]; simpl; intros doc count.
  - run. split; [reflexivity|]. intros ? ? [= _ <-]. lia.
  - unfold doc_insert_pdf. run.
    destruct (insert_pdf doc empty_pdf) as [d1|]; simpl.
    + destruct (IH d1 (count + 1)%nat) as [Hs Hc].
      destruct (pad rounds d1 (count + 1)%nat s) as [[[d2 c2]|e] s2]; simpl in *.
      * split; [assumption|]. intros ? ? [= <- <-]. rewrite (Hc d2 c2 eq_refl). lia.
      * split; [assumption | discriminate].
    + split; [reflexivity | discriminate].
Qed.

Lemma ensure_cases (pdf_path output_path : string) s :
  exists (r : option string * option nat) s',
    ensure_correct_page_count E pdf_path output_path s = (Return r, s') /\
    trace s'
    = (trace s ++ [Call_ensure_correct_page_count pdf_path output_path])%list /\
    uuid_calls s' = uuid_calls s /\
    ((r = (None, None) /\ files s' = files s) \/
     (exists doc doc',
        stored_document (files s) pdf_path = Some doc /\
        r = (Some output_path, Some (Nat.max 39 (page_count doc))) /\
        files s' = <[output_path := Pdf doc']> (files s))).
Proof.
  unfold ensure_correct_page_count, fitz_open, doc_save, while_below_39. run.
  destruct (stored_document (files s) pdf_path) as [doc|] eqn:Hdoc; simpl.
  2:{ eexists. eexists. split; [reflexivity|]. repeat split. now left. }
  match goal with |- context [pad ?n doc ?c ?s0] =>
    destruct (pad_outcome n doc c s0) as [Hs Hc];
    destruct (pad n doc c s0) as [[[doc' count']|e] s1] end; simpl in *.
  - subst s1. rewrite (Hc doc' count' eq_refl). simpl.
    destruct (negb (String.eqb output_path pdf_path)
              && (pdf_savable doc' && fs_writable E output_path)); simpl.
    + eexists. eexists. split; [reflexivity|]. repeat split. right.
      exists doc, doc'. repeat split. do 2 f_equal. lia.
    + eexists. eexists. split; [reflexivity|]. repeat split. now left.
  - subst s1. eexists. eexists. split; [reflexivity|]. repeat split. now left.
Qed.

(** X2. [ensure_correct_page_count] never raises. Either it returns
    [(None, None)] and leaves the files as they were, or it returns the
    output path with a count that is the larger of 39 and the number of
    pages of the source, and the output path is the only file it wrote. *)
Theorem ensure_outcome (pdf_path output_path : string) s :
  exists (r : option string * option nat) s',
    ensure_correct_page_count E pdf_path output_path s = (Return r, s') /\
    trace s'
    = (trace s ++ [Call_ensure_correct_page_count pdf_path output_path])%list /\
    uuid_calls s' = uuid_calls s /\
    ((r = (None, None) /\ files s' = files s) \/
     (exists doc doc',
        stored_document (files s) pdf_path = Some doc /\
        r = (Some output_path, Some (Nat.max 39 (page_count doc))) /\
        files s' = <[output_path := Pdf doc']> (files s))).
Proof. exact (ensure_cases pdf_path output_path s). Qed.

(** X3. When the fetched bytes are not a document that PyMuPDF can open,
    the endpoint answers 500 with the message of the normalization step;
    the publisher and the submitter are not called and the downloaded file
    stays where the fetcher put it. *)
Theorem unreadable_source_is_a_500 data s (url : json) (content : list Byte.byte) :
  Forall (fun f => is_Some (data !! f)) required_fields ->
  data !! "pdf_url" = Some url ->
  requests_get E url = GetResponse 200 (Some content) ->
  fs_writable E input_path = true ->
  pdf_load content = None ->
  exists s',
    order_book E (Dict data) s
    = (Return (error_response "Failed to generate a correctly formatted PDF" 500), s') /\
    trace s'
    = (trace s ++ [Call_download_pdf url; Http_get url;
                   Call_ensure_correct_page_count input_path ready_path])%list /\
    files s' = <[input_path := Blob content]> (files s).
Proof.
  intros Hall Hurl Hget Hw Hload.
  rewrite order_book_dict, (validation_passes _ Hall). unfold fulfil.
  unfold getitem. rewrite Hurl.
  unfold mbind, M_bind, bind at 1 2, mret at 1, M_ret at 1, ret at 1.
  rewrite (download_pdf_fetched _ _ content) by assumption.
  change (not_path (Some (path_join TEMP_DIR "input.pdf"))) with false. cbv iota.
  unfold bind at 1.
  unfold ensure_correct_page_count, fitz_open. run.
  unfold stored_document. simpl.
  change (path_join TEMP_DIR "input.pdf") with input_path.
  rewrite lookup_insert_eq, Hload. simpl.
  eexists. split; [reflexivity|]. simpl. rewrite <- app_assoc. split; reflexivity.
Qed.

(** *** The order submitter, whatever the request holds *)

(** Building the payload draws three identifiers and does nothing else to
    the state, whether it returns or raises. *)
Lemma build_payload_state (pdf_url : string) data s :
  snd (build_payload E pdf_url data s) = drawn3 s.
Proof.
  unfold build_payload, fresh_ref, getitem, str_split, item_first, item_last. run.
  destruct (data !! "customer_name") as [[| | |name| |]|]; simpl; try reflexivity.
  destruct (py_split name) as [|first rest]; simpl; [reflexivity|].
  destruct (last (first :: rest)); simpl; [|reflexivity].
  destruct (data !! "address"); simpl; [|reflexivity].
  destruct (data !! "city"); simpl; [|reflexivity].
  destruct (data !! "postal_code"); simpl; [|reflexivity].
  destruct (data !! "country"); simpl; [|reflexivity].
  destruct (data !! "email"); reflexivity.
Qed.

(** A payload that was built is [payload_of] the request's own values. *)
Lemma build_payload_inv (pdf_url : string) data s (payload : json) s' :
  build_payload E pdf_url data s = (Return payload, s') ->
  exists (name first_name last_name : string) (rest : list string)
         (address city post_code country email : json),
    data !! "customer_name" = Some (JStr name) /\
    py_split name = first_name :: rest /\
    last (first_name :: rest) = Some last_name /\
    data !! "address" = Some address /\
    data !! "city" = Some city /\
    data !! "postal_code" = Some post_code /\
    data !! "country" = Some country /\
    data !! "email" = Some email /\
    payload = payload_of E pdf_url (uuid_calls s) (JStr name) first_name last_name
                address city post_code country email.
Proof.
  unfold build_payload, fresh_ref, getitem, str_split, item_first, item_last. run.
  destruct (data !! "customer_name") as [[| | |name| |]|]; simpl; try discriminate.
  destruct (py_split name) as [|first rest] eqn:Hsplit; simpl; [discriminate|].
  destruct (last (first :: rest)) as [last_name|] eqn:Hlast; simpl; [|discriminate].
  destruct (data !! "address") as [address|]; simpl; [|discriminate].
  destruct (data !! "city") as [city|]; simpl; [|discriminate].
  destruct (data !! "postal_code") as [post_code|]; simpl; [|discriminate].
  destruct (data !! "country") as [country|]; simpl; [|discriminate].
  destruct (data !! "email") as [email|]; simpl; [|discriminate].
  intros [= <- _].
  exists name, first, last_name, rest, address, city, post_code, country, email.
  repeat split; assumption.
Qed.

Lemma build_payload_not_str (pdf_url : string) data s (v : json) :
  data !! "customer_name" = Some v ->
  (forall name, v <> JStr name) ->
  build_payload E pdf_url data s = (Raise AttributeError, drawn3 s).
Proof.
  intros Hname Hv.
  unfold build_payload, fresh_ref, getitem, str_split. run.
  rewrite Hname. simpl. destruct v; try reflexivity. now destruct (Hv s0).
Qed.

(** The keys the payload reads, in the order it reads them. *)
Lemma build_payload_missing (pdf_url : string) data s (key : string) :
  first_missing ["customer_name"; "address"; "city"; "postal_code"; "country"; "email"]
    data = Some key ->
  (forall v, data !! "customer_name" = Some v ->
     exists name first_name rest,
       v = JStr name /\ py_split name = first_name :: rest) ->
  build_payload E pdf_url data s = (Raise (KeyError key), drawn3 s).
Proof.
  intros Hmiss Hname.
  unfold build_payload, fresh_ref, getitem, str_split, item_first, item_last. run.
  simpl in Hmiss.
  destruct (data !! "customer_name") as [v|]; simpl.
  2:{ now injection Hmiss as <-. }
  destruct (Hname v eq_refl) as (name & first & rest & -> & Hsplit).
  rewrite Hsplit. simpl.
  destruct (last (first :: rest)) as [l|] eqn:Hlast; simpl.
  2:{ apply last_None in Hlast. discriminate. }
  destruct (data !! "address"); simpl; [|now injection Hmiss as <-].
  destruct (data !! "city"); simpl; [|now injection Hmiss as <-].
  destruct (data !! "postal_code"); simpl; [|now injection Hmiss as <-].
  destruct (data !! "country"); simpl; [|now injection Hmiss as <-].
  destruct (data !! "email"); simpl; [discriminate | now injection Hmiss as <-].
Qed.

(** X4. Called with a dict whose customer name, if it is there, is a string
    with at least one token, and which lacks one of the keys the payload
    reads, the submitter raises [KeyError] for the first such key in
    reading order; the three identifiers are drawn, and nothing is
    posted. *)
Theorem submitter_missing_key (pdf_url : string) data s (key : string) :
  first_missing ["customer_name"; "address"; "city"; "postal_code"; "country"; "email"]
    data = Some key ->
  (forall v, data !! "customer_name" = Some v ->
     exists name first_name rest,
       v = JStr name /\ py_split name = first_name :: rest) ->
  exists s',
    order_book_with_gelato E pdf_url data s = (Raise (KeyError key), s') /\
    trace s' = (trace s ++ [Call_order_book_with_gelato pdf_url])%list /\
    uuid_calls s' = (uuid_calls s + 3)%nat /\
    files s' = files s.
Proof.
  intros Hmiss Hname. rewrite order_book_with_gelato_run.
  rewrite (build_payload_missing _ _ _ key) by assumption.
  eexists. split; [reflexivity|]. simpl. repeat split. lia.
Qed.

(** X5. Whatever the request and whatever the provider does, a call of the
    submitter draws exactly three identifiers, leaves every file alone and
    posts at most once: either it raises before any request is made, or it
    returns after exactly one POST. *)
Theorem submitter_effects (pdf_url : string) data s :
  exists (res : result (option json)) s',
    order_book_with_gelato E pdf_url data s = (res, s') /\
    uuid_calls s' = (uuid_calls s + 3)%nat /\
    files s' = files s /\
    ((exists e,
        res = Raise e /\
        trace s' = (trace s ++ [Call_order_book_with_gelato pdf_url])%list) \/
     (exists order payload,
        res = Return order /\
        trace s'
        = (trace s ++ [Call_order_book_with_gelato pdf_url;
                       Http_post GELATO_API_URL payload])%list)).
Proof.
  rewrite order_book_with_gelato_run.
  pose proof (build_payload_state pdf_url data
                (logged (Call_order_book_with_gelato pdf_url) s)) as Hstate.
  destruct (build_payload E pdf_url data _) as [[payload|e] s1]; simpl in Hstate; subst s1.
  - destruct (submit_returns payload
                (drawn3 (logged (Call_order_book_with_gelato pdf_url) s)))
      as (order & -> & _).
    eexists. eexists. split; [reflexivity|]. simpl. split; [lia|]. split; [reflexivity|].
    right. exists order, payload. split; [reflexivity|]. now rewrite <- app_assoc.
  - eexists. eexists. split; [reflexivity|]. simpl. split; [lia|]. split; [reflexivity|].
    left. eauto.
Qed.

Lemma append_empty_r (a : string) : a +:+ "" = a.
Proof.
  induction a as [|c a IH]; [reflexivity|].
  change (String c (a +:+ "") = String c a). now rewrite IH.
Qed.

Lemma append_assoc (a b c : string) : (a +:+ b) +:+ c = a +:+ (b +:+ c).
Proof.
  induction a as [|x a IH]; [reflexivity|].
  change (String x ((a +:+ b) +:+ c) = String x (a +:+ (b +:+ c))). now rewrite IH.
Qed.

Lemma ends_with_space_inv (m : string) :
  ends_with_space m = true ->
  exists (m' : string) (w : ascii), m = m' +:+ String w "" /\ py_isspace w = true.
Proof.
  induction m as [|c m IH]; [discriminate|].
  destruct m as [|c' m'].
  - intros Hc. exists "", c. split; [reflexivity | exact Hc].
  - intros Hm. destruct (IH Hm) as (m0 & w & Heq & Hw).
    exists (String c m0), w. split; [|assumption].
    change (String c (String c' m') = String c (m0 +:+ String w "")).
    now rewrite Heq.
Qed.

(** A name of two tokens or more: whitespace, the first token, a stretch
    that begins and ends with whitespace (one character may be both), the
    last token, whitespace. *)
Lemma py_split_first_and_last (before first_name middle last_name after : string)
    (w : ascii) :
  all_space before = true -> all_space after = true ->
  no_space first_name = true -> first_name <> "" ->
  no_space last_name = true -> last_name <> "" ->
  py_isspace w = true ->
  middle = "" \/ ends_with_space middle = true ->
  exists between : list string,
    py_split ((before +:+ first_name) +:+ String w (middle +:+ (last_name +:+ after)))
    = (first_name :: between ++ [last_name])%list.
Proof.
  intros Hb Ha Hf Hfne Hl Hlne Hw Hmid.
  rewrite py_split_app_space by assumption.
  pose proof (py_split_single_token before first_name "" Hb eq_refl Hf Hfne) as H1.
  rewrite append_empty_r in H1. rewrite H1.
  pose proof (py_split_single_token "" last_name after eq_refl Ha Hl Hlne) as H2.
  change ("" +:+ last_name +:+ after) with (last_name +:+ after) in H2.
  destruct Hmid as [-> | Hmid].
  - exists []. change ("" +:+ (last_name +:+ after)) with (last_name +:+ after).
    now rewrite H2.
  - destruct (ends_with_space_inv _ Hmid) as (m' & w2 & -> & Hw2).
    exists (py_split m'). rewrite append_assoc.
    change (String w2 "" +:+ (last_name +:+ after))
      with (String w2 (last_name +:+ after)).
    rewrite py_split_app_space by assumption. now rewrite H2.
Qed.

(** X6. For a customer name of two tokens or more, the payload that is
    posted has the first token as [firstName] and the last token as
    [lastName], whatever stands between them, and the name as it came as
    [companyName]. *)
Theorem long_name_is_first_and_last (pdf_url : string) data s
    (before first_name middle last_name after : string) (w : ascii)
    (address city post_code country email : json) :
  all_space before = true -> all_space after = true ->
  no_space first_name = true -> first_name <> "" ->
  no_space last_name = true -> last_name <> "" ->
  py_isspace w = true ->
  middle = "" \/ ends_with_space middle = true ->
  data !! "customer_name"
  = Some (JStr ((before +:+ first_name)
                +:+ String w (middle +:+ (last_name +:+ after)))) ->
  data !! "address" = Some address ->
  data !! "city" = Some city ->
  data !! "postal_code" = Some post_code ->
  data !! "country" = Some country ->
  data !! "email" = Some email ->
  exists (payload : json) (order : option json) s',
    order_book_with_gelato E pdf_url data s = (Return order, s') /\
    trace s'
    = (trace s ++ [Call_order_book_with_gelato pdf_url;
                   Http_post GELATO_API_URL payload])%list /\
    json_get "shippingAddress" payload ≫= json_get "firstName"
    = Some (JStr first_name) /\
    json_get "shippingAddress" payload ≫= json_get "lastName"
    = Some (JStr last_name) /\
    json_get "shippingAddress" payload ≫= json_get "companyName"
    = data !! "customer_name".
Proof.
  intros Hb Ha Hf Hfne Hl Hlne Hw Hmid Hname Haddr Hcity Hpost Hcountry Hemail.
  destruct (py_split_first_and_last before first_name middle last_name after w
              Hb Ha Hf Hfne Hl Hlne Hw Hmid) as [between Hsplit].
  rewrite order_book_with_gelato_run.
  rewrite (build_payload_built _ _ _ _ first_name last_name (between ++ [last_name])
             address city post_code country email Hname Hsplit)
    by (assumption || (rewrite app_comm_cons; apply last_snoc)).
  match goal with |- context [submit E ?p ?s1] =>
    destruct (submit_returns p s1) as (order & Hsubmit & _); exists p, order end.
  eexists. split; [exact Hsubmit|].
  simpl. rewrite <- app_assoc. rewrite Hname. repeat split.
Qed.

(** X7. Whenever a payload is built, its [firstName] and [lastName] are
    tokens of the customer name: neither is empty, neither holds
    whitespace; [companyName] is the name as it came; and the address
    fields are the request's own values, [postal_code] going to
    [postCode]. *)
Theorem payload_names_are_tokens (pdf_url : string) data s (payload : json) s' :
  build_payload E pdf_url data s = (Return payload, s') ->
  exists (name first_name last_name : string),
    data !! "customer_name" = Some (JStr name) /\
    first_name ∈ py_split name /\ last_name ∈ py_split name /\
    no_space first_name = true /\ first_name <> "" /\
    no_space last_name = true /\ last_name <> "" /\
    json_get "shippingAddress" payload ≫= json_get "companyName" = Some (JStr name) /\
    json_get "shippingAddress" payload ≫= json_get "firstName" = Some (JStr first_name) /\
    json_get "shippingAddress" payload ≫= json_get "lastName" = Some (JStr last_name) /\
    json_get "shippingAddress" payload ≫= json_get "addressLine1" = data !! "address" /\
    json_get "shippingAddress" payload ≫= json_get "city" = data !! "city" /\
    json_get "shippingAddress" payload ≫= json_get "postCode" = data !! "postal_code" /\
    json_get "shippingAddress" payload ≫= json_get "country" = data !! "country" /\
    json_get "shippingAddress" payload ≫= json_get "email" = data !! "email".
Proof.
  intros Hbuild.
  apply build_payload_inv in Hbuild
    as (name & first & l & rest & address & city & post_code & country & email
        & Hname & Hsplit & Hlast & -> & -> & -> & -> & -> & ->).
  pose proof (py_split_tokens name) as Htok. rewrite Forall_forall in Htok.
  assert (Hfirst : first ∈ py_split name) by (rewrite Hsplit; left).
  assert (Hl : l ∈ py_split name).
  { rewrite Hsplit. apply last_Some in Hlast as [l' Hl']. rewrite Hl'. clear. set_solver. }
  exists name, first, l.
  destruct (Htok _ Hfirst) as [? ?]. destruct (Htok _ Hl) as [? ?].
  repeat split; assumption.
Qed.

(** X8. A 201 whose body does not parse, or parses to something without an
    [id], counts as a failure: the submitter returns [None], and the
    endpoint answers 500 with the message "Failed to place book order". *)
Theorem created_without_id_is_a_failure (gelato_pdf_url : string) data s3
    (payload : json) s4 (json_body : option json) :
  build_payload E gelato_pdf_url data
    (logged (Call_order_book_with_gelato gelato_pdf_url) s3)
  = (Return payload, s4) ->
  requests_post E GELATO_API_URL (GELATO_API_KEY E) payload
  = PostResponse 201 json_body ->
  (forall order_data, json_body = Some order_data -> json_get "id" order_data = None) ->
  order_book_with_gelato E gelato_pdf_url data s3
  = (Return None, logged (Http_post GELATO_API_URL payload) s4) /\
  forall s, reaches_submit E data s gelato_pdf_url s3 ->
    order_book E (Dict data) s
    = (Return (error_response "Failed to place book order" 500),
       logged (Http_post GELATO_API_URL payload) s4).
Proof.
  intros Hbuild Hpost Hnoid.
  assert (Hrun : order_book_with_gelato E gelato_pdf_url data s3
                 = (Return None, logged (Http_post GELATO_API_URL payload) s4)).
  { rewrite order_book_with_gelato_run, Hbuild.
    apply (submit_unusable _ _ json_body Hpost).
    intros order_data order_id Hbody Hid.
    rewrite (Hnoid order_data Hbody) in Hid. discriminate. }
  split; [exact Hrun|]. intros s Hreach.
  rewrite (order_book_at_submit _ _ _ _ Hreach). now apply respond_failed.
Qed.

(** *** The endpoint, case by case *)

(** Every run of the handler on a dict is of one of five kinds: it stops
    at validation, at the fetch, at the normalization or at the
    publication, or it reaches the submitter and ends as [respond] does. *)
Lemma order_book_cases data s (res : result response) s' :
  order_book E (Dict data) s = (res, s') ->
  (exists field,
     first_missing required_fields data = Some field /\
     res = Return (error_response ("Missing field: " +:+ field) 400) /\ s' = s) \/
  (Forall (fun f => is_Some (data !! f)) required_fields /\
   ((exists url,
       data !! "pdf_url" = Some url /\
       download_pdf E url s = (Return None, s') /\
       res = Return (error_response "Failed to download PDF" 500)) \/
    (exists url s1 r,
       data !! "pdf_url" = Some url /\
       download_pdf E url s = (Return (Some input_path), s1) /\
       ensure_correct_page_count E input_path ready_path s1 = (Return r, s') /\
       r <> (Some ready_path, Some 39%nat) /\
       res = Return (error_response "Failed to generate a correctly formatted PDF" 500)) \/
    (exists url user_id s1 s2,
       data !! "pdf_url" = Some url /\
       data !! "user_id" = Some user_id /\
       download_pdf E url s = (Return (Some input_path), s1) /\
       ensure_correct_page_count E input_path ready_path s1
       = (Return (Some ready_path, Some 39%nat), s2) /\
       stdout_encodes E
         ("https://mock-s3-bucket.com/" +:+ (fstr E user_id +:+ "/pdf/gelato_ready.pdf"))
       = false /\
       s' = logged (Call_upload_binary ready_path
                      (fstr E user_id +:+ "/pdf/gelato_ready.pdf")) s2 /\
       res = Return (error_response "Failed to upload PDF" 500)) \/
    (exists gelato_pdf_url s3,
       reaches_submit E data s gelato_pdf_url s3 /\
       respond E gelato_pdf_url data s3 = (res, s')))).
Proof.
  intros Hrun. rewrite order_book_dict in Hrun.
  destruct (first_missing required_fields data) as [field|] eqn:Hfirst.
  { left. exists field. injection Hrun as <- <-. auto. }
  right. apply first_missing_none in Hfirst. split; [assumption|].
  assert (Hurl : is_Some (data !! "pdf_url")).
  { rewrite Forall_forall in Hfirst. apply Hfirst. unfold required_fields. clear. set_solver. }
  assert (Huser : is_Some (data !! "user_id")).
  { rewrite Forall_forall in Hfirst. apply Hfirst. unfold required_fields. clear. set_solver. }
  destruct Hurl as [url Hurl]. destruct Huser as [user_id Huser].
  unfold fulfil, getitem in Hrun. rewrite Hurl, Huser in Hrun.
  unfold mbind, M_bind, bind at 1 2, mret at 1, M_ret at 1, ret at 1 in Hrun.
  destruct (download_pdf_cases url s)
    as (r1 & s1 & Hget & _ & _ & [(content & -> & _) | [(-> & _) | (-> & _)]]);
    rewrite Hget in Hrun.
  2,3: left; exists url; injection Hrun as <- <-; auto.
  change (not_path (Some input_path)) with false in Hrun. cbv iota in Hrun.
  change (default "" (Some input_path)) with input_path in Hrun.
  change (path_join PDF_DIR "gelato_ready.pdf") with ready_path in Hrun.
  unfold bind at 1 in Hrun.
  destruct (ensure_cases input_path ready_path s1)
    as (r2 & s2 & Hfix & _ & _ & [[-> _] | (doc & doc' & _ & -> & _)]);
    rewrite Hfix in Hrun.
  { right. left. exists url, s1, (None, None). injection Hrun as <- <-.
    repeat split; try assumption. discriminate. }
  change (not_path (Some ready_path)) with false in Hrun.
  rewrite orb_false_l in Hrun. unfold count_differs_39 in Hrun.
  destruct (Nat.eqb_spec (Nat.max 39 (page_count doc)) 39) as [Heq|Hne];
    cbn [negb] in Hrun; cbv iota in Hrun.
  - right. right. rewrite Heq in Hfix.
    change (default "" (Some ready_path)) with ready_path in Hrun.
    unfold bind at 1, try_except, bind at 1, mret at 1, M_ret at 1, ret at 1 in Hrun.
    unfold bind at 1 in Hrun.
    destruct (upload_binary E ready_path (fstr E user_id +:+ "/pdf/gelato_ready.pdf") s2)
      as [[g|e] s3] eqn:Hup.
    + right. exists g, s3. split; [|exact Hrun].
      split; [assumption|]. exists url, user_id, s1, s2. auto.
    + left. exists url, user_id, s1, s2.
      unfold upload_binary, print_value in Hup. run.
      destruct (stdout_encodes E _) eqn:Hprint; [discriminate|].
      injection Hup as _ <-. injection Hrun as <- <-. auto 10.
  - right. left. exists url, s1, (Some ready_path, Some (Nat.max 39 (page_count doc))).
    injection Hrun as <- <-. repeat split; try assumption. congruence.
Qed.

(** On a body that is not a dict the handler ends where it began: the
    print of a string body raises, or the membership test raises, or a
    field is missing, or [data["pdf_url"]] raises. *)
Lemma order_book_not_dict (data : request_json) s (res : result response) s' :
  (forall d, data <> Dict d) ->
  order_book E data s = (res, s') ->
  s' = s /\
  (res = Raise TypeError \/
   (res = Raise UnicodeEncodeError /\
    exists text, data = RStr text /\ stdout_encodes E text = false) \/
   (exists field,
      first_absent required_fields data = Some field /\
      res = Return (error_response ("Missing field: " +:+ field) 400))).
Proof.
  intros Hnot Hrun. unfold order_book in Hrun.
  unfold mbind, M_bind, bind at 1 2 in Hrun.
  destruct data as [d| | | |text|items].
  - now destruct (Hnot d).
  - injection Hrun as <- <-. auto.
  - injection Hrun as <- <-. auto.
  - injection Hrun as <- <-. auto.
  - unfold print_request, print_value in Hrun.
    destruct (stdout_encodes E text) eqn:Hprint.
    + rewrite (missing_field_iterable _ (RStr text)) in Hrun by (simpl; eauto).
      destruct (first_absent required_fields (RStr text)) as [field|];
        injection Hrun as <- <-; eauto 10.
    + injection Hrun as <- <-. split; [reflexivity|]. right. left. eauto.
  - unfold print_request, mret at 1, M_ret at 1, ret at 1 in Hrun.
    rewrite (missing_field_iterable _ (RArr items)) in Hrun by (simpl; eauto).
    destruct (first_absent required_fields (RArr items)) as [field|];
      injection Hrun as <- <-; eauto 10.
Qed.

Lemma first_absent_dict (fields : list string) data :
  first_absent fields (Dict data) = first_missing fields data.
Proof.
  induction fields as [|f fields IH]; simpl; [reflexivity|].
  destruct (data !! f); simpl; [exact IH | reflexivity].
Qed.

(** How [respond] ends, for a request that passed validation. *)
Lemma respond_cases (gelato_pdf_url : string) data s3 (res : result response) s' :
  respond E gelato_pdf_url data s3 = (res, s') ->
  (exists e,
     build_payload E gelato_pdf_url data
       (logged (Call_order_book_with_gelato gelato_pdf_url) s3)
     = (Raise e, s') /\
     res = Raise e /\
     s' = drawn3 (logged (Call_order_book_with_gelato gelato_pdf_url) s3)) \/
  (exists payload,
     build_payload E gelato_pdf_url data
       (logged (Call_order_book_with_gelato gelato_pdf_url) s3)
     = (Return payload,
        drawn3 (logged (Call_order_book_with_gelato gelato_pdf_url) s3)) /\
     s' = logged (Http_post GELATO_API_URL payload)
            (drawn3 (logged (Call_order_book_with_gelato gelato_pdf_url) s3)) /\
     (res = Return (error_response "Failed to place book order" 500) \/
      exists order_id,
        res = Return (mkResponse
                        (JObj
                           [("message", JStr "Book order created successfully!");
                            ("order_id", order_id);
                            ("gelato_pdf_url", JStr gelato_pdf_url)])
                        200))).
Proof.
  intros Hrun.
  pose proof (build_payload_state gelato_pdf_url data
                (logged (Call_order_book_with_gelato gelato_pdf_url) s3)) as Hstate.
  destruct (build_payload E gelato_pdf_url data _) as [[payload|e] s4] eqn:Hbuild;
    simpl in Hstate; subst s4.
  - right. exists payload. split; [reflexivity|].
    destruct (submit_returns payload
                (drawn3 (logged (Call_order_book_with_gelato gelato_pdf_url) s3)))
      as (order & Hsubmit & Hid).
    assert (Hobwg : order_book_with_gelato E gelato_pdf_url data s3
                    = (Return order,
                       logged (Http_post GELATO_API_URL payload)
                         (drawn3 (logged (Call_order_book_with_gelato gelato_pdf_url) s3)))).
    { rewrite order_book_with_gelato_run, Hbuild. exact Hsubmit. }
    destruct order as [order_data|].
    + destruct (Hid order_data eq_refl) as [order_id Hoid].
      rewrite (respond_created _ _ _ _ _ _ Hobwg Hoid) in Hrun.
      injection Hrun as <- <-. split; [reflexivity|]. right. eauto.
    + rewrite (respond_failed _ _ _ _ Hobwg) in Hrun.
      injection Hrun as <- <-. split; [reflexivity|]. now left.
  - left. exists e.
    assert (Hobwg : order_book_with_gelato E gelato_pdf_url data s3
                    = (Raise e, drawn3 (logged (Call_order_book_with_gelato gelato_pdf_url) s3))).
    { rewrite order_book_with_gelato_run, Hbuild. reflexivity. }
    rewrite (respond_raised _ _ _ _ _ Hobwg) in Hrun.
    injection Hrun as <- <-. auto.
Qed.

Lemma download_pdf_frame (url : json) s (res : result (option string)) s' :
  download_pdf E url s = (res, s') ->
  trace s' = (trace s ++ [Call_download_pdf url; Http_get url])%list /\
  forall p, p <> input_path -> files s' !! p = files s !! p.
Proof.
  intros Hrun.
  destruct (download_pdf_cases url s)
    as (r & s1 & Hget & Htrace & _
        & [(content & _ & _ & _ & Hfiles)
          | [(_ & Hfiles & _) | (_ & content & left & _ & Hfiles & _)]]);
    rewrite Hget in Hrun; injection Hrun as <- <-; (split; [assumption|]);
    intros p Hp; rewrite Hfiles; try reflexivity;
    now rewrite lookup_insert_ne by congruence.
Qed.

Lemma ensure_frame (pdf_path output_path : string) s
    (res : result (option string * option nat)) s' :
  ensure_correct_page_count E pdf_path output_path s = (res, s') ->
  trace s' = (trace s ++ [Call_ensure_correct_page_count pdf_path output_path])%list /\
  forall p, p <> output_path -> files s' !! p = files s !! p.
Proof.
  intros Hrun.
  destruct (ensure_cases pdf_path output_path s)
    as (r & s1 & Hfix & Htrace & _ & [(_ & Hfiles) | (doc & doc' & _ & _ & Hfiles)]);
    rewrite Hfix in Hrun; injection Hrun as <- <-; (split; [assumption|]);
    intros p Hp; rewrite Hfiles; [reflexivity|].
  now rewrite lookup_insert_ne by congruence.
Qed.

Lemma reaches_submit_frame data s (gelato_pdf_url : string) s3 :
  reaches_submit E data s gelato_pdf_url s3 ->
  exists (url : json) (key : string),
    trace s3
    = (trace s ++ [Call_download_pdf url; Http_get url;
                   Call_ensure_correct_page_count input_path ready_path;
                   Call_upload_binary ready_path key])%list /\
    forall p, p <> input_path -> p <> ready_path -> files s3 !! p = files s !! p.
Proof.
  intros (_ & url & user_id & s1 & s2 & _ & _ & Hget & Hfix & Hup).
  apply download_pdf_frame in Hget as [Ht1 Hf1].
  apply ensure_frame in Hfix as [Ht2 Hf2].
  unfold upload_binary, print_value in Hup. run.
  destruct (stdout_encodes E _); [|discriminate].
  injection Hup as _ <-. simpl.
  exists url, (fstr E user_id +:+ "/pdf/gelato_ready.pdf"). split.
  - rewrite Ht2, Ht1. now rewrite <- !app_assoc.
  - intros p Hp1 Hp2. now rewrite Hf2, Hf1.
Qed.



(** X9. Every response of the endpoint is one of six: a 400 naming the
    first missing field, one of four 500s (fetch, normalization,
    publication, submission), each only for a body that is a JSON object
    with the eight fields, or the 200 with its three keys. *)
Theorem order_book_responses (data : request_json) s (r : response) s' :
  order_book E data s = (Return r, s') ->
  (status r = 400 /\
   exists field,
     first_absent required_fields data = Some field /\
     body r = JObj [("error", JStr ("Missing field: " +:+ field))]) \/
  (status r = 500 /\
   (exists d, data = Dict d /\
      Forall (fun f => is_Some (d !! f)) required_fields) /\
   exists msg,
     body r = JObj [("error", JStr msg)] /\
     (msg = "Failed to download PDF" \/
      msg = "Failed to generate a correctly formatted PDF" \/
      msg = "Failed to upload PDF" \/
      msg = "Failed to place book order")) \/
  (status r = 200 /\
   (exists d, data = Dict d /\
      Forall (fun f => is_Some (d !! f)) required_fields) /\
   exists (order_id : json) (gelato_pdf_url : string),
     body r = JObj [("message", JStr "Book order created successfully!");
                    ("order_id", order_id);
                    ("gelato_pdf_url", JStr gelato_pdf_url)]).
Proof.
  intros Hrun.
  destruct data as [d| | | |text|items].
  2-6: apply order_book_not_dict in Hrun as (_ & [[=] | [([=] & _) | (f & Hf & [= ->])]]);
       try discriminate; left; (split; [reflexivity|]); eauto.
  apply order_book_cases in Hrun
    as [(field & Hfirst & [= ->] & _)
       | (Hall & [(url & _ & _ & [= ->])
                 | [(url & s1 & r2 & _ & _ & _ & _ & [= ->])
                   | [(url & user_id & s1 & s2 & _ & _ & _ & _ & _ & _ & [= ->])
                     | (g & s3 & _ & Hrespond)]]])].
  - left. split; [reflexivity|]. exists field. rewrite first_absent_dict. auto.
  - right. left. split; [reflexivity|]. split; [eauto|]. eexists. split; [reflexivity|]. auto.
  - right. left. split; [reflexivity|]. split; [eauto|]. eexists. split; [reflexivity|]. auto.
  - right. left. split; [reflexivity|]. split; [eauto|]. eexists. split; [reflexivity|]. auto.
  - apply respond_cases in Hrespond
      as [(e & _ & [=] & _) | (payload & _ & _ & [[= ->] | (order_id & [= ->])])].
    + right. left. split; [reflexivity|]. split; [eauto|].
      eexists. split; [reflexivity|]. auto.
    + right. right. split; [reflexivity|]. split; [eauto|]. eauto.
Qed.



(** X12. A customer name that is not a string passes validation, since
    only the key is looked at; once the earlier steps have gone through,
    the [split] call raises [AttributeError], which leaves the endpoint
    uncaught, and no order is posted. *)
Theorem non_string_name_raises data s (gelato_pdf_url : string) s3 (v : json) :
  reaches_submit E data s gelato_pdf_url s3 ->
  data !! "customer_name" = Some v ->
  (forall name, v <> JStr name) ->
  first_missing required_fields data = None /\
  exists s',
    order_book E (Dict data) s = (Raise AttributeError, s') /\
    trace s' = (trace s3 ++ [Call_order_book_with_gelato gelato_pdf_url])%list.
Proof.
  intros Hreach Hname Hnot. split.
  - apply validation_passes, Hreach.
  - assert (Hrun : order_book_with_gelato E gelato_pdf_url data s3
                   = (Raise AttributeError,
                      drawn3 (logged (Call_order_book_with_gelato gelato_pdf_url) s3))).
    { rewrite order_book_with_gelato_run.
      now rewrite (build_payload_not_str _ _ _ v) by assumption. }
    eexists. split.
    + rewrite (order_book_at_submit _ _ _ _ Hreach). apply respond_raised, Hrun.
    + reflexivity.
Qed.

(** X13. Whatever the body and the outcome, returned or raised, the calls
    of one request are an initial part of the one sequence fetch, GET,
    normalize, publish, submit, POST: no step runs twice, none runs before
    the one in front of it, there is at most one GET and at most one POST,
    and the handler never stops between the call of the fetcher and its
    GET. *)
Theorem order_book_trace (data : request_json) s :
  exists (url : json) (key gelato_pdf_url : string) (payload : json)
         (new : list event),
    trace (snd (order_book E data s)) = (trace s ++ new)%list /\
    new `prefix_of`
      [Call_download_pdf url; Http_get url;
       Call_ensure_correct_page_count input_path ready_path;
       Call_upload_binary ready_path key;
       Call_order_book_with_gelato gelato_pdf_url;
       Http_post GELATO_API_URL payload] /\
    length new <> 1%nat.
Proof.
  destruct (order_book E data s) as [res s'] eqn:Hrun. simpl.
  destruct data as [d| | | |text|items].
  2-6: apply order_book_not_dict in Hrun as (-> & _); try discriminate;
       exists JNull, "", "", JNull, []; (split; [now rewrite app_nil_r|]);
       (split; [eexists; reflexivity | discriminate]).
  apply order_book_cases in Hrun
    as [(field & _ & _ & ->)
       | (Hall & [(url & _ & Hget & _)
                 | [(url & s1 & r2 & _ & Hget & Hfix & _)
                   | [(url & user_id & s1 & s2 & _ & _ & Hget & Hfix & _ & -> & _)
                     | (g & s3 & Hreach & Hrespond)]]])].
  - exists JNull, "", "", JNull, []. split; [now rewrite app_nil_r|].
    split; [eexists; reflexivity | discriminate].
  - apply download_pdf_frame in Hget as [Ht _].
    exists url, "", "", JNull, [Call_download_pdf url; Http_get url].
    split; [assumption|]. split; [eexists; reflexivity | discriminate].
  - apply download_pdf_frame in Hget as [Ht1 _].
    apply ensure_frame in Hfix as [Ht2 _].
    exists url, "", "", JNull,
      [Call_download_pdf url; Http_get url;
       Call_ensure_correct_page_count input_path ready_path].
    split; [rewrite Ht2, Ht1; now rewrite <- app_assoc|].
    split; [eexists; reflexivity | discriminate].
  - apply download_pdf_frame in Hget as [Ht1 _].
    apply ensure_frame in Hfix as [Ht2 _].
    exists url, (fstr E user_id +:+ "/pdf/gelato_ready.pdf"), "", JNull,
      [Call_download_pdf url; Http_get url;
       Call_ensure_correct_page_count input_path ready_path;
       Call_upload_binary ready_path (fstr E user_id +:+ "/pdf/gelato_ready.pdf")].
    split; [simpl; rewrite Ht2, Ht1; now rewrite <- !app_assoc|].
    split; [eexists; reflexivity | discriminate].
  - destruct (reaches_submit_frame _ _ _ _ Hreach) as (url & key & Ht & _).
    apply respond_cases in Hrespond
      as [(e & _ & _ & ->) | (payload & _ & -> & _)]; simpl; rewrite Ht.
    + exists url, key, g, JNull,
        [Call_download_pdf url; Http_get url;
         Call_ensure_correct_page_count input_path ready_path;
         Call_upload_binary ready_path key; Call_order_book_with_gelato g].
      split; [now rewrite <- app_assoc|].
      split; [eexists; reflexivity | discriminate].
    + exists url, key, g, payload,
        [Call_download_pdf url; Http_get url;
         Call_ensure_correct_page_count input_path ready_path;
         Call_upload_binary ready_path key; Call_order_book_with_gelato g;
         Http_post GELATO_API_URL payload].
      split; [now rewrite <- !app_assoc|].
      split; [eexists; symmetry; apply app_nil_r | discriminate].
Qed.

(** X14. The endpoint writes to two paths only, the fixed input path and
    the fixed output path: every other file is after the request what it
    was before, whatever the outcome. *)
Theorem order_book_writes_two_paths (data : request_json) s (p : string) :
  p <> input_path ->
  p <> ready_path ->
  files (snd (order_book E data s)) !! p = files s !! p.
Proof.
  intros Hp1 Hp2.
  destruct (order_book E data s) as [res s'] eqn:Hrun. simpl.
  destruct data as [d| | | |text|items].
  2-6: apply order_book_not_dict in Hrun as (-> & _); try discriminate; reflexivity.
  apply order_book_cases in Hrun
    as [(field & _ & _ & ->)
       | (Hall & [(url & _ & Hget & _)
                 | [(url & s1 & r2 & _ & Hget & Hfix & _)
                   | [(url & user_id & s1 & s2 & _ & _ & Hget & Hfix & _ & -> & _)
                     | (g & s3 & Hreach & Hrespond)]]])].
  - reflexivity.
  - apply download_pdf_frame in Hget as [_ Hf]. now apply Hf.
  - apply download_pdf_frame in Hget as [_ Hf1].
    apply ensure_frame in Hfix as [_ Hf2]. now rewrite Hf2, Hf1.
  - apply download_pdf_frame in Hget as [_ Hf1].
    apply ensure_frame in Hfix as [_ Hf2]. simpl. now rewrite Hf2, Hf1.
  - destruct (reaches_submit_frame _ _ _ _ Hreach) as (url & key & _ & Hf).
    apply respond_cases in Hrespond
      as [(e & _ & _ & ->) | (payload & _ & -> & _)]; simpl; now apply Hf.
Qed.

End Properties.

(** ** Runs on the reference library *)

Module Runs.
Import Reference.

(** C1. The claim fails on a one-page source. Each round of the loop
    inserts a new, empty document, which adds no page, while the counter
    goes up by one: the normalizer returns the count 39, the file it saved
    still has one page, and the endpoint goes on to place the order and
    answers 200. *)
Theorem one_page_source_is_saved_with_one_page :
  (exists s',
     ensure_correct_page_count (world 1 201) "in.pdf" "out.pdf" (disk_with "in.pdf" 1)
     = (Return (Some "out.pdf", Some 39%nat), s') /\
     page_count <$> stored_document (files s') "out.pdf" = Some 1%nat) /\
  (exists r s',
     order_book (world 1 201) (Dict (request "Prince")) start = (Return r, s') /\
     status r = 200 /\
     page_count <$> stored_document (files s') ready_path = Some 1%nat).
Proof.
  split.
  - eexists. split; [vm_compute; reflexivity|]. vm_compute. reflexivity.
  - eexists. eexists. split; [vm_compute; reflexivity|].
    split; vm_compute; reflexivity.
Qed.

Ltac all_present :=
  repeat (constructor; [eexists; vm_compute; reflexivity|]); constructor.

Lemma ensure_idempotent_on_39_pages_witness :
  exists s',
    ensure_correct_page_count (world 39 201) "in.pdf" "out.pdf" (disk_with "in.pdf" 39)
    = (Return (Some "out.pdf", Some 39%nat), s') /\
    stored_document (files s') "out.pdf" = Some (seq 0 39) /\
    exists s'',
      ensure_correct_page_count (world 39 201) "out.pdf" "again.pdf" s'
      = (Return (Some "again.pdf", Some 39%nat), s'') /\
      stored_document (files s'') "again.pdf" = Some (seq 0 39).
Proof.
  apply (ensure_idempotent_on_39_pages (world 39 201) "in.pdf" "out.pdf" "again.pdf"
           (disk_with "in.pdf" 39) (seq 0 39));
    try (vm_compute; reflexivity); discriminate.
Defined.

Lemma oversized_document_is_refused_witness :
  exists s' new,
    order_book (world 40 201) (Dict (request "Prince")) start
    = (Return (error_response "Failed to generate a correctly formatted PDF" 500), s') /\
    trace s' = (trace start ++ new)%list /\
    never is_call_upload new /\ never is_call_submit new.
Proof.
  refine (proj2 (oversized_document_is_refused (world 40 201) (replicate 40 1%nat) _)
            (request "Prince") start (JStr "https://example.org/book.pdf")
            (replicate 40 Byte.x01) _ _ _ _ _).
  - vm_compute. lia.
  - all_present.
  - vm_compute. reflexivity.
  - vm_compute. reflexivity.
  - vm_compute. reflexivity.
  - vm_compute. reflexivity.
Defined.



Lemma reaches_submit_run (post_status : Z) (customer_name : string) :
  reaches_submit (world 39 post_status) (request customer_name) start asset_url
    (at_submit (world 39 post_status)).
Proof.
  split; [all_present|].
  exists book_url, (JStr "u1"), (at_fetch (world 39 post_status)),
    (at_ready (world 39 post_status)).
  repeat split; vm_compute; reflexivity.
Defined.

Lemma single_token_name_is_first_and_last_witness :
  exists (payload : json) (order : option json) s',
    order_book_with_gelato (world 39 201) asset_url (request "  Prince ") start
    = (Return order, s') /\
    trace s'
    = (trace start ++ [Call_order_book_with_gelato asset_url;
                       Http_post GELATO_API_URL payload])%list /\
    json_get "shippingAddress" payload ≫= json_get "firstName" = Some (JStr "Prince") /\
    json_get "shippingAddress" payload ≫= json_get "lastName" = Some (JStr "Prince").
Proof.
  apply (single_token_name_is_first_and_last (world 39 201) asset_url
           (request "  Prince ") start "  " "Prince" " "
           (JStr "1 Road") (JStr "Oslo") (JStr "0150") (JStr "NO")
           (JStr "p@example.org"));
    try (vm_compute; reflexivity).
  discriminate.
Defined.

(** C6, as it was claimed, fails on a 201 whose body has no [id]: the
    status is 201, yet the submitter returns [None] and the endpoint
    answers 500. *)
Lemma created_without_id_is_no_order :
  requests_post (world_with_body (Some (JObj [("status", JStr "created")])))
    GELATO_API_URL (Some "key")
    (built_payload (world_with_body (Some (JObj [("status", JStr "created")]))) "Prince")
  = PostResponse 201 (Some (JObj [("status", JStr "created")])) /\
  fst (order_book_with_gelato
         (world_with_body (Some (JObj [("status", JStr "created")])))
         asset_url (request "Prince")
         (at_submit (world_with_body (Some (JObj [("status", JStr "created")])))))
  = Return None /\
  fst (order_book (world_with_body (Some (JObj [("status", JStr "created")])))
         (Dict (request "Prince")) start)
  = Return (error_response "Failed to place book order" 500).
Proof. repeat split; vm_compute; reflexivity. Qed.

Lemma submission_outcomes_witness :
  (exists s',
     order_book (world 39 201) (Dict (request "Prince")) start
     = (Return (mkResponse
                  (JObj
                     [("message", JStr "Book order created successfully!");
                      ("order_id", JStr "ord-1");
                      ("gelato_pdf_url", JStr asset_url)])
                  200), s')) /\
  (exists s',
     order_book (world_with_body None) (Dict (request "Prince")) start
     = (Return (error_response "Failed to place book order" 500), s')) /\
  (exists s',
     order_book (world 39 503) (Dict (request "Prince")) start
     = (Return (error_response "Failed to place book order" 500), s')).
Proof.
  split; [|split]; eexists.
  - refine (proj2 (proj1 (submission_outcomes (world 39 201) asset_url (request "Prince")
                            (at_submit (world 39 201)) (built_payload (world 39 201) "Prince")
                            (snd (built (world 39 201) "Prince")) _)
                      (JObj [("id", JStr "ord-1")]) (JStr "ord-1") _ _ _)
              start (reaches_submit_run 201 "Prince")).
    + vm_compute. reflexivity.
    + vm_compute. reflexivity.
    + vm_compute. reflexivity.
    + vm_compute. reflexivity.
  - refine (proj2 (proj1 (proj2 (submission_outcomes (world_with_body None) asset_url
                                   (request "Prince")
                                   (at_submit (world_with_body None))
                                   (built_payload (world_with_body None) "Prince")
                                   (snd (built (world_with_body None) "Prince")) _))
                      None _ _)
              start _).
    + vm_compute. reflexivity.
    + vm_compute. reflexivity.
    + discriminate.
    + split; [all_present|].
      exists book_url, (JStr "u1"), (at_fetch (world_with_body None)),
        (at_ready (world_with_body None)).
      repeat split; vm_compute; reflexivity.
  - refine (proj2 (proj2 (proj2 (submission_outcomes (world 39 503) asset_url
                                   (request "Prince")
                                   (at_submit (world 39 503))
                                   (built_payload (world 39 503) "Prince")
                                   (snd (built (world 39 503) "Prince")) _)) _)
              start (reaches_submit_run 503 "Prince")).
    + vm_compute. reflexivity.
    + right. exists 503, (Some (JObj [("id", JStr "ord-1")])).
      split; [reflexivity | lia].
Defined.

Lemma success_is_a_200_witness :
  exists (order_id user_id : json) (r : response),
    order_book (world 39 201) (Dict (request "Prince")) start
    = (Return r, snd (order_book_with_gelato (world 39 201) asset_url (request "Prince")
                        (at_submit (world 39 201)))) /\
    status r = 200 /\
    body r = JObj [("message", JStr "Book order created successfully!");
                   ("order_id", order_id);
                   ("gelato_pdf_url", JStr asset_url)] /\
    json_get "id" (JObj [("id", JStr "ord-1")]) = Some order_id /\
    request "Prince" !! "user_id" = Some user_id /\
    asset_url
    = "https://mock-s3-bucket.com/" +:+ (fstr (world 39 201) user_id +:+ "/pdf/gelato_ready.pdf").
Proof.
  apply (success_is_a_200 (world 39 201) (request "Prince") start asset_url
           (at_submit (world 39 201)) (JObj [("id", JStr "ord-1")]) _
           (reaches_submit_run 201 "Prince")).
  vm_compute. reflexivity.
Defined.

Lemma blank_name_raises_witness :
  first_missing required_fields (request "  ") = None /\
  exists s',
    order_book_with_gelato (world 39 201) asset_url (request "  ")
      (at_submit (world 39 201))
    = (Raise IndexError, s') /\
    order_book (world 39 201) (Dict (request "  ")) start = (Raise IndexError, s') /\
    trace s'
    = (trace (at_submit (world 39 201)) ++ [Call_order_book_with_gelato asset_url])%list.
Proof.
  apply (blank_name_raises (world 39 201) (request "  ") start asset_url
           (at_submit (world 39 201)) "  " (reaches_submit_run 201 "  "));
    vm_compute; reflexivity.
Defined.



(** *** Runs for the further properties *)

Ltac reach w :=
  split;
  [all_present
  |exists book_url, (JStr "u1"), (at_fetch w), (at_ready w);
   repeat split; vm_compute; reflexivity].

(** A body that cannot be read, behind a 200: the fetcher returns [None]
    and the file that stood at the input path is gone, emptied by [open]. *)
Example lost_body_empties_the_input_file :
  stored_document (files (disk_with input_path 3)) input_path = Some (seq 0 3) /\
  fst (download_pdf world_lost_body book_url (disk_with input_path 3)) = Return None /\
  files (snd (download_pdf world_lost_body book_url (disk_with input_path 3)))
    !! input_path
  = Some (Blob []).
Proof. repeat split; vm_compute; reflexivity. Qed.

Lemma unreadable_source_is_a_500_witness :
  exists s',
    order_book (world 0 201) (Dict (request "Prince")) start
    = (Return (error_response "Failed to generate a correctly formatted PDF" 500), s') /\
    trace s'
    = (trace start ++ [Call_download_pdf book_url; Http_get book_url;
                       Call_ensure_correct_page_count input_path ready_path])%list /\
    files s' = <[input_path := Blob []]> (files start).
Proof.
  apply (unreadable_source_is_a_500 (world 0 201) (request "Prince") start book_url []).
  - all_present.
  - vm_compute. reflexivity.
  - vm_compute. reflexivity.
  - vm_compute. reflexivity.
  - vm_compute. reflexivity.
Defined.

Lemma submitter_missing_key_witness :
  exists s',
    order_book_with_gelato (world 39 201) asset_url (delete "city" (request "Prince")) start
    = (Raise (KeyError "city"), s') /\
    trace s' = (trace start ++ [Call_order_book_with_gelato asset_url])%list /\
    uuid_calls s' = (uuid_calls start + 3)%nat /\
    files s' = files start.
Proof.
  apply (submitter_missing_key (world 39 201) asset_url (delete "city" (request "Prince"))
           start "city").
  - vm_compute. reflexivity.
  - intros v Hv. vm_compute in Hv. injection Hv as <-.
    exists "Prince", "Prince", []. split; [reflexivity | vm_compute; reflexivity].
Defined.

Lemma long_name_is_first_and_last_witness :
  exists (payload : json) (order : option json) s',
    order_book_with_gelato (world 39 201) asset_url (request "Ada Lovelace") start
    = (Return order, s') /\
    trace s'
    = (trace start ++ [Call_order_book_with_gelato asset_url;
                       Http_post GELATO_API_URL payload])%list /\
    json_get "shippingAddress" payload ≫= json_get "firstName" = Some (JStr "Ada") /\
    json_get "shippingAddress" payload ≫= json_get "lastName" = Some (JStr "Lovelace") /\
    json_get "shippingAddress" payload ≫= json_get "companyName"
    = request "Ada Lovelace" !! "customer_name".
Proof.
  apply (long_name_is_first_and_last (world 39 201) asset_url
           (request "Ada Lovelace") start
           "" "Ada" "" "Lovelace" "" " "%char
           (JStr "1 Road") (JStr "Oslo") (JStr "0150") (JStr "NO")
           (JStr "p@example.org"));
    try (vm_compute; reflexivity); try discriminate.
  now left.
Defined.

Lemma payload_names_are_tokens_witness :
  exists (name first_name last_name : string),
    request "Ada King Lovelace" !! "customer_name" = Some (JStr name) /\
    first_name ∈ py_split name /\ last_name ∈ py_split name /\
    no_space first_name = true /\ first_name <> "" /\
    no_space last_name = true /\ last_name <> "" /\
    json_get "shippingAddress" (built_payload (world 39 201) "Ada King Lovelace")
      ≫= json_get "companyName" = Some (JStr name) /\
    json_get "shippingAddress" (built_payload (world 39 201) "Ada King Lovelace")
      ≫= json_get "firstName" = Some (JStr first_name) /\
    json_get "shippingAddress" (built_payload (world 39 201) "Ada King Lovelace")
      ≫= json_get "lastName" = Some (JStr last_name) /\
    json_get "shippingAddress" (built_payload (world 39 201) "Ada King Lovelace")
      ≫= json_get "addressLine1" = request "Ada King Lovelace" !! "address" /\
    json_get "shippingAddress" (built_payload (world 39 201) "Ada King Lovelace")
      ≫= json_get "city" = request "Ada King Lovelace" !! "city" /\
    json_get "shippingAddress" (built_payload (world 39 201) "Ada King Lovelace")
      ≫= json_get "postCode" = request "Ada King Lovelace" !! "postal_code" /\
    json_get "shippingAddress" (built_payload (world 39 201) "Ada King Lovelace")
      ≫= json_get "country" = request "Ada King Lovelace" !! "country" /\
    json_get "shippingAddress" (built_payload (world 39 201) "Ada King Lovelace")
      ≫= json_get "email" = request "Ada King Lovelace" !! "email".
Proof.
  apply (payload_names_are_tokens (world 39 201) asset_url (request "Ada King Lovelace")
           (logged (Call_order_book_with_gelato asset_url) (at_submit (world 39 201)))
           (built_payload (world 39 201) "Ada King Lovelace")
           (snd (built (world 39 201) "Ada King Lovelace"))).
  vm_compute. reflexivity.
Defined.

Lemma created_without_id_is_a_failure_witness :
  order_book (world_with_body (Some (JObj [("status", JStr "created")])))
    (Dict (request "Prince")) start
  = (Return (error_response "Failed to place book order" 500),
     logged (Http_post GELATO_API_URL
               (built_payload (world_with_body (Some (JObj [("status", JStr "created")])))
                  "Prince"))
       (snd (built (world_with_body (Some (JObj [("status", JStr "created")]))) "Prince"))).
Proof.
  refine (proj2 (created_without_id_is_a_failure
                   (world_with_body (Some (JObj [("status", JStr "created")])))
                   asset_url (request "Prince")
                   (at_submit (world_with_body (Some (JObj [("status", JStr "created")]))))
                   (built_payload (world_with_body (Some (JObj [("status", JStr "created")])))
                      "Prince")
                   (snd (built (world_with_body (Some (JObj [("status", JStr "created")])))
                           "Prince"))
                   (Some (JObj [("status", JStr "created")])) _ _ _)
            start _).
  - vm_compute. reflexivity.
  - vm_compute. reflexivity.
  - intros order_data Hbody. injection Hbody as <-. vm_compute. reflexivity.
  - reach (world_with_body (Some (JObj [("status", JStr "created")]))).
Defined.

Lemma order_book_responses_witness :
  (status created_response = 400 /\
   exists field,
     first_absent required_fields (Dict (request "Prince")) = Some field /\
     body created_response
     = JObj [("error", JStr ("Missing field: " +:+ field))]) \/
  (status created_response = 500 /\
   (exists d, Dict (request "Prince") = Dict d /\
      Forall (fun f => is_Some (d !! f)) required_fields) /\
   exists msg,
     body created_response
     = JObj [("error", JStr msg)] /\
     (msg = "Failed to download PDF" \/
      msg = "Failed to generate a correctly formatted PDF" \/
      msg = "Failed to upload PDF" \/
      msg = "Failed to place book order")) \/
  (status created_response = 200 /\
   (exists d, Dict (request "Prince") = Dict d /\
      Forall (fun f => is_Some (d !! f)) required_fields) /\
   exists (order_id : json) (gelato_pdf_url : string),
     body created_response
     = JObj [("message", JStr "Book order created successfully!");
             ("order_id", order_id);
             ("gelato_pdf_url", JStr gelato_pdf_url)]).
Proof.
  apply (order_book_responses (world 39 201) (Dict (request "Prince")) start
           created_response
           (snd (order_book (world 39 201) (Dict (request "Prince")) start))).
  vm_compute. reflexivity.
Defined.



Lemma non_string_name_raises_witness :
  first_missing required_fields (request_named (JNum 7)) = None /\
  exists s',
    order_book (world 39 201) (Dict (request_named (JNum 7))) start
    = (Raise AttributeError, s') /\
    trace s'
    = (trace (at_submit (world 39 201)) ++ [Call_order_book_with_gelato asset_url])%list.
Proof.
  apply (non_string_name_raises (world 39 201) (request_named (JNum 7)) start asset_url
           (at_submit (world 39 201)) (JNum 7)).
  - reach (world 39 201).
  - vm_compute. reflexivity.
  - discriminate.
Defined.

Lemma order_book_writes_two_paths_witness :
  files (snd (order_book (world 39 201) (Dict (request "Prince")) (disk_with "other.pdf" 3)))
    !! "other.pdf"
  = files (disk_with "other.pdf" 3) !! "other.pdf".
Proof.
  apply (order_book_writes_two_paths (world 39 201) (Dict (request "Prince"))
           (disk_with "other.pdf" 3) "other.pdf"); discriminate.
Defined.

Lemma ensure_keeps_pages_if_a_round_adds_none_witness :
  Some 39%nat = Some 39%nat /\
  exists doc',
    stored_document
      (files (snd (ensure_correct_page_count (world 1 201) "in.pdf" "out.pdf"
                     (disk_with "in.pdf" 5))))
      "out.pdf"
    = Some doc' /\
    page_count doc' = page_count (seq 0 5).
Proof.
  apply (ensure_keeps_pages_if_a_round_adds_none (world 1 201) "in.pdf" "out.pdf"
           (disk_with "in.pdf" 5) (seq 0 5) "out.pdf" (Some 39%nat)
           (snd (ensure_correct_page_count (world 1 201) "in.pdf" "out.pdf"
                   (disk_with "in.pdf" 5)))).
  - intros d d' Hd. vm_compute in Hd. injection Hd as <-.
    simpl. now rewrite length_app.
  - reflexivity.
  - vm_compute. reflexivity.
  - vm_compute. lia.
  - vm_compute. reflexivity.
Defined.

End Runs.
